(** * Celestial: the tool-call negotiation loop of the MCP client and host

    A shallow embedding of [celestial_client.py], [celestial_host.py] and
    [celestial_engine.py].

    - [Py]      the Python values and builtins the three files rely on
                ([dict.get], [str.strip], [str.join], [str()], [repr()]);
    - [Json]    a model of the standard library's [json.dumps(.., indent=2)]
                and [json.loads];
    - [Client]  [MCPClient.process_query] of [celestial_client.py];
    - [Host]    [MCPClient.process_query], [MCPClient.prettify_output] and
                [handle_query] of [celestial_host.py];
    - [Engine]  the four tools and [celestial_request] of
                [celestial_engine.py];
    - [Double]  a scripted oracle and tool channel to run the code on;
    - [Spec]    the specification's reading of a response, to compare the
                code with;
    - [Shape]   the predicates on a decoded response that the loop of
                [process_query] branches on;
    - [Cli]     [MCPClient.__init__], [connect_to_server], [chat_loop],
                [cleanup] and [main] of [celestial_client.py];
    - [Stage]   a transport, an environment and a remote service to run
                the command line and the tools on.

    Scope of the model.  A Python [str] is a [string] with one [ascii] per
    code point, so texts range over the code points below 256.  Python
    floats are not modelled: the values are those of float-free JSON. *)

From Stdlib Require Import ZArith String Ascii List Bool Lia.
From Stdlib Require Import DecimalString DecimalN DecimalFacts.
From stdpp Require Import base option list strings gmap.

Import ListNotations.
Set Warnings "-register-all".
Local Open Scope string_scope.
Local Open Scope Z_scope.

(* ================================================================== *)
(** * Python values and builtins *)
(* ================================================================== *)

Module Py.

(** The values [json.loads] produces (floats apart).  A [dict] keeps its
    insertion order and has one entry per key; see [dict_set] and [wf]. *)
Inductive pyval : Type :=
| PyNone
| PyBool (b : bool)
| PyInt (z : Z)
| PyStr (s : string)
| PyList (l : list pyval)
| PyDict (d : list (string * pyval)).

(** Induction over values, through the lists and dicts inside them. *)
Section Induction.
Variable P : pyval -> Prop.
Hypothesis none_case : P PyNone.
Hypothesis bool_case : forall b, P (PyBool b).
Hypothesis int_case : forall z, P (PyInt z).
Hypothesis str_case : forall s, P (PyStr s).
Hypothesis list_case : forall l, Forall P l -> P (PyList l).
Hypothesis dict_case : forall d, Forall (fun kv => P (snd kv)) d -> P (PyDict d).

Fixpoint pyval_induction (v : pyval) : P v :=
  match v with
  | PyNone => none_case
  | PyBool b => bool_case b
  | PyInt z => int_case z
  | PyStr s => str_case s
  | PyList l =>
      list_case l
        ((fix all (l : list pyval) : Forall P l :=
            match l with
            | [] => List.Forall_nil P
            | x :: l' => @List.Forall_cons _ P x l' (pyval_induction x) (all l')
            end) l)
  | PyDict d =>
      dict_case d
        ((fix all (d : list (string * pyval)) : Forall (fun kv => P (snd kv)) d :=
            match d with
            | [] => List.Forall_nil _
            | kv :: d' =>
                @List.Forall_cons _ (fun kv => P (snd kv)) kv d'
                  (pyval_induction (snd kv)) (all d')
            end) d)
  end.
End Induction.

(** The exceptions that show up in the embedded code. *)
Inductive exn : Type :=
| AttributeError (msg : string)
| TypeError (msg : string)
| OtherError (msg : string).

(** [str(e)] *)
Definition exn_str (e : exn) : string :=
  match e with
  | AttributeError msg | TypeError msg | OtherError msg => msg
  end.

Inductive result (A : Type) : Type :=
| Returned (a : A)
| Raised (e : exn).
Arguments Returned {A} a.
Arguments Raised {A} e.

(** ** Characters *)

Definition chr (n : nat) : string := String (ascii_of_nat n) EmptyString.
Definition nl : string := chr 10.
Definition dq : string := chr 34.
Definition sq : string := chr 39.
Definition bs : string := chr 92.

Definition code (c : ascii) : nat := nat_of_ascii c.

(** [str.isspace] on one code point below 256: the Unicode white space
    there is U+0009..U+000D, U+001C..U+0020, U+0085 and U+00A0. *)
Definition isspace (c : ascii) : bool :=
  let n := code c in
  ((9 <=? n) && (n <=? 13))%nat || ((28 <=? n) && (n <=? 32))%nat
  || (n =? 133)%nat || (n =? 160)%nat.

Fixpoint lstrip (s : string) : string :=
  match s with
  | String c s' => if isspace c then lstrip s' else s
  | EmptyString => EmptyString
  end.

(** [rstrip] keeps a character when something that is not white space
    follows it, or when it is not white space itself. *)
Fixpoint rstrip (s : string) : string :=
  match s with
  | String c s' =>
      match rstrip s' with
      | EmptyString => if isspace c then EmptyString else String c EmptyString
      | t => String c t
      end
  | EmptyString => EmptyString
  end.

(** [s.strip()] *)
Definition strip (s : string) : string := rstrip (lstrip s).

(** [s.lower()] on code points below 256: A..Z and the capital letters of
    U+00C0..U+00DE (U+00D7, the multiplication sign, apart). *)
Definition lower_char (c : ascii) : ascii :=
  let n := code c in
  if ((65 <=? n) && (n <=? 90))%nat
     || ((192 <=? n) && (n <=? 222) && negb (n =? 215))%nat
  then ascii_of_nat (n + 32) else c.

Fixpoint lower (s : string) : string :=
  match s with
  | String c s' => String (lower_char c) (lower s')
  | EmptyString => EmptyString
  end.

(** ** Dictionaries *)

Definition dict := list (string * pyval).

Fixpoint dict_lookup (k : string) (d : dict) : option pyval :=
  match d with
  | [] => None
  | (k', v) :: d' => if String.eqb k k' then Some v else dict_lookup k d'
  end.

(** [d[k] = v]: an existing key keeps its place, a new one goes last. *)
Fixpoint dict_set (k : string) (v : pyval) (d : dict) : dict :=
  match d with
  | [] => [(k, v)]
  | (k', v') :: d' =>
      if String.eqb k k' then (k, v) :: d' else (k', v') :: dict_set k v d'
  end.

(** [o.get(key, default)]: only a [dict] has the attribute [get]. *)
Definition type_name (v : pyval) : string :=
  match v with
  | PyNone => "NoneType"
  | PyBool _ => "bool"
  | PyInt _ => "int"
  | PyStr _ => "str"
  | PyList _ => "list"
  | PyDict _ => "dict"
  end.

Definition no_attribute (v : pyval) (attr : string) : exn :=
  AttributeError
    (sq ++ type_name v ++ sq ++ " object has no attribute " ++ sq ++ attr ++ sq).

Definition get (o : pyval) (key : string) (default : pyval) : result pyval :=
  match o with
  | PyDict d =>
      Returned (match dict_lookup key d with Some v => v | None => default end)
  | _ => Raised (no_attribute o "get")
  end.

(** [for item in o]: a list yields its elements, a dict its keys, a string
    its characters; nothing else is iterable. *)
Fixpoint chars (s : string) : list pyval :=
  match s with
  | String c s' => PyStr (String c EmptyString) :: chars s'
  | EmptyString => []
  end.

Definition iter (o : pyval) : result (list pyval) :=
  match o with
  | PyList l => Returned l
  | PyDict d => Returned (map (fun kv => PyStr (fst kv)) d)
  | PyStr s => Returned (chars s)
  | _ => Raised (TypeError (sq ++ type_name o ++ sq ++ " object is not iterable"))
  end.

(** [v == "..."] for a string literal on the right. *)
Definition eq_str (v : pyval) (s : string) : bool :=
  match v with
  | PyStr s' => String.eqb s' s
  | _ => false
  end.

(** ** [repr()] and [str()] *)

Definition hex_digit (n : nat) : ascii :=
  if (n <? 10)%nat then ascii_of_nat (48 + n) else ascii_of_nat (87 + n).

(** Two lower-case hexadecimal digits, as in [%02x]. *)
Definition hex2 (n : nat) : string :=
  String (hex_digit (n / 16)) (String (hex_digit (n mod 16)) EmptyString).

Fixpoint contains (c : ascii) (s : string) : bool :=
  match s with
  | String c' s' => Ascii.eqb c c' || contains c s'
  | EmptyString => false
  end.

Definition int_str (z : Z) : string := NilZero.string_of_int (Z.to_int z).
Definition nat_str (n : nat) : string := NilZero.string_of_uint (Nat.to_uint n).

(** [repr] of a string puts it in single quotes, or in double quotes when
    it holds a single quote and no double quote; it escapes the quote, the
    backslash and what is not printable. *)
Definition repr_quote (s : string) : ascii :=
  if contains "'"%char s && negb (contains (ascii_of_nat 34) s)
  then ascii_of_nat 34 else "'"%char.

Definition repr_char (quote c : ascii) : string :=
  let n := code c in
  if Ascii.eqb c quote || (n =? 92)%nat then String "\"%char (String c EmptyString)
  else if (n =? 9)%nat then "\t"
  else if (n =? 10)%nat then "\n"
  else if (n =? 13)%nat then "\r"
  else if (n <? 32)%nat || (n =? 127)%nat then "\x" ++ hex2 n
  else if (n <? 127)%nat then String c EmptyString
  else if (n <=? 160)%nat || (n =? 173)%nat then "\x" ++ hex2 n
  else String c EmptyString.

Fixpoint repr_chars (quote : ascii) (s : string) : string :=
  match s with
  | String c s' => repr_char quote c ++ repr_chars quote s'
  | EmptyString => EmptyString
  end.

Definition repr_str (s : string) : string :=
  let quote := repr_quote s in
  String quote (repr_chars quote s ++ String quote EmptyString).

Fixpoint repr (v : pyval) : string :=
  match v with
  | PyNone => "None"
  | PyBool true => "True"
  | PyBool false => "False"
  | PyInt z => int_str z
  | PyStr s => repr_str s
  | PyList l => "[" ++ String.concat ", " (map repr l) ++ "]"
  | PyDict d =>
      "{" ++ String.concat ", "
               (map (fun '(k, x) => repr_str k ++ ": " ++ repr x) d) ++ "}"
  end.

(** [str(v)], which is also what an f-string field [{v}] renders. *)
Definition str (v : pyval) : string :=
  match v with
  | PyStr s => s
  | _ => repr v
  end.

(** [sep.join(items)]: every item has to be a [str]. *)
Fixpoint join_strings (i : nat) (items : list pyval) : result (list string) :=
  match items with
  | [] => Returned []
  | PyStr s :: rest =>
      match join_strings (S i) rest with
      | Returned l => Returned (s :: l)
      | Raised e => Raised e
      end
  | v :: _ =>
      Raised (TypeError ("sequence item " ++ nat_str i ++ ": expected str instance, "
                           ++ type_name v ++ " found"))
  end.

Definition join (sep : string) (items : list pyval) : result string :=
  match join_strings 0 items with
  | Returned l => Returned (String.concat sep l)
  | Raised e => Raised e
  end.

End Py.

(* ================================================================== *)
(** * The [json] module of the standard library *)
(* ================================================================== *)

(** [json.dumps(obj, indent=2)] and [json.loads(s)], as CPython's
    [json.encoder] and [json.decoder] define them, on lists of characters.
    A number with a fraction or an exponent, [NaN] and [Infinity] would
    decode to a float; [loads] has no value for them and answers [None].
    Neither the interpreter's recursion limit nor its bound on the digits
    of an integer literal is part of the model. *)
Module Json.
Import Py.

Local Open Scope char_scope.
Local Open Scope list_scope.

Definition chars_of (s : string) : list ascii := list_ascii_of_string s.
Definition quote : ascii := ascii_of_nat 34.

(** ** Encoder *)

(** [py_encode_basestring_ascii]: the printable ASCII characters stand for
    themselves, the quote and the backslash apart; the rest is escaped. *)
Definition escape_char (c : ascii) : list ascii :=
  let n := code c in
  if (n =? 34)%nat then ["\"; quote]
  else if (n =? 92)%nat then ["\"; "\"]
  else if (n =? 8)%nat then ["\"; "b"]
  else if (n =? 12)%nat then ["\"; "f"]
  else if (n =? 10)%nat then ["\"; "n"]
  else if (n =? 13)%nat then ["\"; "r"]
  else if (n =? 9)%nat then ["\"; "t"]
  else if ((32 <=? n) && (n <=? 126))%nat then [c]
  else ["\"; "u"; "0"; "0"; hex_digit (n / 16); hex_digit (n mod 16)].

Definition encode_string (s : string) : list ascii :=
  quote :: flat_map escape_char (chars_of s) ++ [quote].

Definition encode_int (z : Z) : list ascii := chars_of (int_str z).

(** ['\n' + _indent * level] with [_indent] two spaces. *)
Definition newline_indent (level : nat) : list ascii :=
  "010" :: repeat " " (2 * level).

Fixpoint sep_concat (sep : list ascii) (parts : list (list ascii)) : list ascii :=
  match parts with
  | [] => []
  | [x] => x
  | x :: rest => x ++ sep ++ sep_concat sep rest
  end.

Definition item_separator (level : nat) : list ascii := "," :: newline_indent level.

(** [_iterencode] at nesting depth [level]. *)
Fixpoint encode (level : nat) (v : pyval) : list ascii :=
  match v with
  | PyNone => chars_of "null"
  | PyBool true => chars_of "true"
  | PyBool false => chars_of "false"
  | PyInt z => encode_int z
  | PyStr s => encode_string s
  | PyList [] => chars_of "[]"
  | PyList l =>
      "[" :: newline_indent (S level)
        ++ sep_concat (item_separator (S level)) (map (encode (S level)) l)
        ++ newline_indent level ++ ["]"]
  | PyDict [] => chars_of "{}"
  | PyDict d =>
      "{" :: newline_indent (S level)
        ++ sep_concat (item_separator (S level))
             (map (fun '(k, x) => encode_string k ++ ":" :: " " :: encode (S level) x) d)
        ++ newline_indent level ++ ["}"]
  end.

Definition dumps (v : pyval) : string := string_of_list_ascii (encode 0 v).

(** ** Decoder *)

Definition is_ws (c : ascii) : bool :=
  let n := code c in (n =? 32)%nat || (n =? 9)%nat || (n =? 10)%nat || (n =? 13)%nat.

Fixpoint skip_ws (s : list ascii) : list ascii :=
  match s with
  | c :: s' => if is_ws c then skip_ws s' else s
  | [] => []
  end.

Definition hex_value (c : ascii) : option nat :=
  let n := code c in
  if ((48 <=? n) && (n <=? 57))%nat then Some (n - 48)%nat
  else if ((97 <=? n) && (n <=? 102))%nat then Some (n - 87)%nat
  else if ((65 <=? n) && (n <=? 70))%nat then Some (n - 55)%nat
  else None.

(** The character a one-letter escape stands for. *)
Definition unescape (c : ascii) : option ascii :=
  let n := code c in
  if (n =? 34)%nat then Some quote
  else if (n =? 92)%nat then Some "\"
  else if (n =? 47)%nat then Some "/"
  else if (n =? 98)%nat then Some "008"
  else if (n =? 102)%nat then Some "012"
  else if (n =? 110)%nat then Some "010"
  else if (n =? 114)%nat then Some "013"
  else if (n =? 116)%nat then Some "009"
  else None.

Definition cons_char (c : ascii) (r : option (string * list ascii)) :
  option (string * list ascii) :=
  match r with
  | Some (s, rest) => Some (String c s, rest)
  | None => None
  end.

(** [scanstring], from the character after the opening quote.  A control
    character is refused (strict mode); a [\uXXXX] escape of a code point
    from 256 on has no character in this model of [str]. *)
Fixpoint scanstring (s : list ascii) : option (string * list ascii) :=
  match s with
  | [] => None
  | c :: s' =>
      if (code c =? 34)%nat then Some (EmptyString, s')
      else if (code c =? 92)%nat then
        match s' with
        | [] => None
        | e :: s'' =>
            if (code e =? 117)%nat then
              match s'' with
              | h1 :: h2 :: h3 :: h4 :: s3 =>
                  match hex_value h1, hex_value h2, hex_value h3, hex_value h4 with
                  | Some a, Some b, Some c3, Some d =>
                      if ((a =? 0) && (b =? 0))%nat
                      then cons_char (ascii_of_nat (16 * c3 + d)) (scanstring s3)
                      else None
                  | _, _, _, _ => None
                  end
              | _ => None
              end
            else
              match unescape e with
              | Some ch => cons_char ch (scanstring s'')
              | None => None
              end
        end
      else if (code c <? 32)%nat then None
      else cons_char c (scanstring s')
  end.

Definition is_digit (c : ascii) : bool := ((48 <=? code c) && (code c <=? 57))%nat.

Fixpoint take_digits (s : list ascii) : list ascii * list ascii :=
  match s with
  | c :: s' =>
      if is_digit c then let '(ds, r) := take_digits s' in (c :: ds, r) else ([], s)
  | [] => ([], [])
  end.

Fixpoint digits_value (acc : N) (ds : list ascii) : N :=
  match ds with
  | c :: ds' => digits_value (10 * acc + N.of_nat (code c - 48)) ds'
  | [] => acc
  end.

(** Whether a fraction (a dot and a digit) or an exponent ([e] or [E], an
    optional sign and a digit) follows the integer part, which makes the
    number a float. *)
Definition starts_with_digit (s : list ascii) : bool :=
  match s with c :: _ => is_digit c | [] => false end.

Definition float_tail (s : list ascii) : bool :=
  match s with
  | c :: r =>
      if (code c =? 46)%nat then starts_with_digit r
      else if (code c =? 101)%nat || (code c =? 69)%nat then
        match r with
        | sgn :: r' =>
            if (code sgn =? 43)%nat || (code sgn =? 45)%nat
            then starts_with_digit r' else is_digit sgn
        | [] => false
        end
      else false
  | [] => false
  end.

(** [NUMBER_RE]: an optional minus sign, then a zero or a digit from 1 to 9
    followed by digits; an integer unless a float tail follows. *)
Definition scan_number (s : list ascii) : option (pyval * list ascii) :=
  let '(neg, s1) :=
    match s with
    | c :: r => if (code c =? 45)%nat then (true, r) else (false, s)
    | [] => (false, s)
    end in
  match s1 with
  | c :: r =>
      if is_digit c then
        let '(ds, rest) := if (code c =? 48)%nat then ([], r) else take_digits r in
        if float_tail rest then None
        else
          let n := Z.of_N (digits_value 0 (c :: ds)) in
          Some (PyInt (if neg then - n else n), rest)
      else None
  | [] => None
  end.

(** [s[idx:idx + len(p)] == p], with what follows the prefix. *)
Fixpoint strip_prefix (p s : list ascii) : option (list ascii) :=
  match p, s with
  | [], _ => Some s
  | a :: p', b :: s' => if Ascii.eqb a b then strip_prefix p' s' else None
  | _ :: _, [] => None
  end.

(** The values that are neither strings nor containers: [null], [true],
    [false] and the numbers. *)
Definition scan_literal (s : list ascii) : option (pyval * list ascii) :=
  match strip_prefix (chars_of "null") s with
  | Some r => Some (PyNone, r)
  | None =>
      match strip_prefix (chars_of "true") s with
      | Some r => Some (PyBool true, r)
      | None =>
          match strip_prefix (chars_of "false") s with
          | Some r => Some (PyBool false, r)
          | None => scan_number s
          end
      end
  end.

(** [dict(pairs)]: a later pair with the same key overwrites the value. *)
Definition dict_of_pairs (pairs : list (string * pyval)) : dict :=
  fold_left (fun d '(k, v) => dict_set k v d) pairs [].

(** [scan_once], with [JSONArray] and [JSONObject] as [parse_elems] and
    [parse_members].  Every call consumes a character, so the length of the
    text is fuel enough. *)
Fixpoint scan_once (fuel : nat) (s : list ascii) : option (pyval * list ascii) :=
  match fuel with
  | O => None
  | S f =>
      match s with
      | [] => None
      | c :: r =>
          if (code c =? 34)%nat then
            match scanstring r with
            | Some (x, r') => Some (PyStr x, r')
            | None => None
            end
          else if (code c =? 123)%nat then
            match skip_ws r with
            | c' :: r' =>
                if (code c' =? 125)%nat then Some (PyDict [], r')
                else if (code c' =? 34)%nat then
                  match parse_members f r' with
                  | Some (pairs, r'') => Some (PyDict (dict_of_pairs pairs), r'')
                  | None => None
                  end
                else None
            | [] => None
            end
          else if (code c =? 91)%nat then
            match skip_ws r with
            | c' :: r' =>
                if (code c' =? 93)%nat then Some (PyList [], r')
                else
                  match parse_elems f (c' :: r') with
                  | Some (vs, r'') => Some (PyList vs, r'')
                  | None => None
                  end
            | [] => None
            end
          else scan_literal s
      end
  end

(** The elements of an array, from the first character of an element. *)
with parse_elems (fuel : nat) (s : list ascii) : option (list pyval * list ascii) :=
  match fuel with
  | O => None
  | S f =>
      match scan_once f s with
      | Some (v, r) =>
          match skip_ws r with
          | c :: r' =>
              if (code c =? 93)%nat then Some ([v], r')
              else if (code c =? 44)%nat then
                match parse_elems f (skip_ws r') with
                | Some (vs, r'') => Some (v :: vs, r'')
                | None => None
                end
              else None
          | [] => None
          end
      | None => None
      end
  end

(** The members of an object, from the character after the quote that
    opens a key. *)
with parse_members (fuel : nat) (s : list ascii) :
  option (list (string * pyval) * list ascii) :=
  match fuel with
  | O => None
  | S f =>
      match scanstring s with
      | Some (k, r) =>
          match skip_ws r with
          | c :: r1 =>
              if (code c =? 58)%nat then
                match scan_once f (skip_ws r1) with
                | Some (v, r2) =>
                    match skip_ws r2 with
                    | c' :: r3 =>
                        if (code c' =? 125)%nat then Some ([(k, v)], r3)
                        else if (code c' =? 44)%nat then
                          match skip_ws r3 with
                          | c'' :: r4 =>
                              if (code c'' =? 34)%nat then
                                match parse_members f r4 with
                                | Some (pairs, r5) => Some ((k, v) :: pairs, r5)
                                | None => None
                                end
                              else None
                          | [] => None
                          end
                        else None
                    | [] => None
                    end
                | None => None
                end
              else None
          | [] => None
          end
      | None => None
      end
  end.

(** A run of a parser that succeeds with fuel [f] consumes something, and
    succeeds alike with any fuel that covers what it consumed. *)
Definition fuel_enough {A : Type}
    (parse : nat -> list ascii -> option (A * list ascii)) (f : nat) : Prop :=
  forall s x r,
    parse f s = Some (x, r) ->
    (length r < length s)%nat
    /\ forall f', (length s - length r <= f')%nat -> parse f' s = Some (x, r).

(** What may follow a value in the encoder's output: nothing, a comma or
    a line break. *)
Definition delimited (rest : list ascii) : bool :=
  match rest with
  | [] => true
  | c :: _ => (code c =? 44)%nat || (code c =? 10)%nat
  end.

(** [json.loads(s)]: [None] stands for [JSONDecodeError]. *)
Definition loads (s : string) : option pyval :=
  let cs := chars_of s in
  match scan_once (S (length cs)) (skip_ws cs) with
  | Some (v, r) => match skip_ws r with [] => Some v | _ => None end
  | None => None
  end.

End Json.

(* ================================================================== *)
(** * The collaborators and the effects of a query cycle *)
(* ================================================================== *)

Module Runtime.
Import Py.

(** Modelled from the spec: the [Tool] objects of [session.list_tools()]
    come from the [mcp] package; section 3 gives a ToolDescriptor a name,
    a description and an input schema. *)
Record Tool : Type := {
  name : string;
  description : string;
  inputSchema : pyval;
}.

(** What the code reaches outside itself, over a world [W] that the calls
    may change: the tool channel ([session.list_tools], [session.call_tool]),
    the completion oracle ([openai.chat.completions.create], reduced to the
    text of the first choice) and [json.loads], where [None] stands for
    [JSONDecodeError], the one exception of the decoder that
    [process_query] catches; the others it can raise ([RecursionError] on
    deep nesting, [ValueError] on an integer beyond the digit limit) are
    outside the model.  [call_tool] returns the result as [str()] renders
    it, or raises; a result that reports an error is a result. *)
Class Env (W : Type) : Type := {
  json_loads : string -> option pyval;
  list_tools : W -> result (list Tool) * W;
  call_tool : pyval -> pyval -> W -> result string * W;
  chat_completion : string -> pyval -> W -> result string * W;
}.

Section Monad.
Context {W : Type} `{Env W}.

(** The state of a cycle: the world, the tool calls made so far (name and
    arguments, oldest first) and what was printed (one entry per [print]). *)
Record state : Type := {
  world : W;
  calls : list (pyval * pyval);
  stdout : list string;
}.

Definition M (A : Type) : Type := state -> result A * state.

Definition ret {A} (a : A) : M A := fun st => (Returned a, st).
Definition raise {A} (e : exn) : M A := fun st => (Raised e, st).

Definition bind {A B} (m : M A) (k : A -> M B) : M B :=
  fun st =>
    match m st with
    | (Returned a, st') => k a st'
    | (Raised e, st') => (Raised e, st')
    end.

(** [try: body / except Exception as e: handler(e)] *)
Definition try_except {A} (body : M A) (handler : exn -> M A) : M A :=
  fun st =>
    match body st with
    | (Returned a, st') => (Returned a, st')
    | (Raised e, st') => handler e st'
    end.

Definition lift {A} (r : result A) : M A := fun st => (r, st).

Definition on_world {A} (f : W -> result A * W) : M A :=
  fun st =>
    let '(r, w) := f (world st) in
    (r, {| world := w; calls := calls st; stdout := stdout st |}).

Definition print (text : string) : M unit :=
  fun st =>
    (Returned tt,
     {| world := world st; calls := calls st; stdout := stdout st ++ [text] |}).

Definition session_list_tools : M (list Tool) := on_world list_tools.

Definition session_call_tool (tool_name tool_input : pyval) : M string :=
  fun st =>
    let '(r, w) := call_tool tool_name tool_input (world st) in
    (r, {| world := w;
           calls := calls st ++ [(tool_name, tool_input)];
           stdout := stdout st |}).

Definition openai_chat (system_prompt : string) (user : pyval) : M string :=
  on_world (chat_completion system_prompt user).

End Monad.

Arguments state W : clear implicits.
Arguments M W A : clear implicits.

Declare Scope py_scope.
Delimit Scope py_scope with py.
Notation "'let*' x ':=' m 'in' k" := (bind m (fun x => k))
  (at level 10, x name, m at level 100, k at level 200) : py_scope.

(** The list comprehension that both [process_query] build the catalogue
    with. *)
Definition tool_entry (tool : Tool) : pyval :=
  PyDict [("name", PyStr (name tool));
          ("description", PyStr (description tool));
          ("input_schema", inputSchema tool)].

End Runtime.

(* ================================================================== *)
(** * [celestial_client.py] *)
(* ================================================================== *)

Module Client.
Import Py Runtime.
Local Open Scope py_scope.

Section Client.
Context {W : Type} `{Env W}.

(** The text of the f-string, line by line. *)
Definition prompt_lines (query : string) (catalogue : string) : list string :=
  [ EmptyString;
    "You are a helpful assistant with the ability to call tools.";
    "The user has asked: " ++ query;
    EmptyString;
    "Here are the available tools (name, description, input_schema):";
    catalogue;
    EmptyString;
    "Respond with valid JSON of the form:";
    "{";
    "  " ++ dq ++ "content" ++ dq ++ ": [";
    "    {";
    "      " ++ dq ++ "type" ++ dq ++ ": " ++ dq ++ "text" ++ dq ++ ",";
    "      " ++ dq ++ "text" ++ dq ++ ": " ++ dq ++ "any reply text" ++ dq;
    "    },";
    "    {";
    "      " ++ dq ++ "type" ++ dq ++ ": " ++ dq ++ "tool_use" ++ dq ++ ",";
    "      " ++ dq ++ "name" ++ dq ++ ": " ++ dq ++ "some_tool_name" ++ dq ++ ",";
    "      " ++ dq ++ "input" ++ dq ++ ": { ... }";
    "    }";
    "  ]";
    "}";
    EmptyString;
    "No extra keys. Only valid JSON. The " ++ dq ++ "input" ++ dq
      ++ " object must match the tool's input schema if you call a tool.";
    "If you do not need a tool, just return one item of type "
      ++ dq ++ "text" ++ dq ++ ".";
    "        " ].

Definition system_prompt (query : string) (available_tools : pyval) : string :=
  strip (String.concat nl (prompt_lines query (Json.dumps available_tools))).

(** The body of [for item in content_list], returning the chunks after the
    [append]. *)
Definition loop_body (item : pyval) (final_text_chunks : list pyval) :
  M W (list pyval) :=
  let* ty := lift (get item "type" PyNone) in
  if eq_str ty "text" then
    let* text := lift (get item "text" (PyStr EmptyString)) in
    ret (final_text_chunks ++ [text])%list
  else
    let* ty' := lift (get item "type" PyNone) in
    if eq_str ty' "tool_use" then
      let* tool_name := lift (get item "name" PyNone) in
      let* tool_input := lift (get item "input" (PyDict [])) in
      let* printed :=
        print (nl ++ "Executing tool '" ++ str tool_name ++ "' with input "
                 ++ str tool_input ++ "...") in
      try_except
        (let* tool_result := session_call_tool tool_name tool_input in
         ret (final_text_chunks
                ++ [PyStr ("[Tool '" ++ str tool_name ++ "' executed with result: "
                             ++ tool_result ++ "]")])%list)
        (fun e =>
           ret (final_text_chunks
                  ++ [PyStr ("[Error executing tool '" ++ str tool_name ++ "': "
                               ++ exn_str e ++ "]")])%list)
    else
      ret (final_text_chunks ++ [PyStr ("Unrecognized item: " ++ str item)])%list.

Fixpoint for_items (items : list pyval) (final_text_chunks : list pyval) :
  M W (list pyval) :=
  match items with
  | [] => ret final_text_chunks
  | item :: rest =>
      let* chunks := loop_body item final_text_chunks in
      for_items rest chunks
  end.

(** Steps 4 to 6 of [process_query]: from the text of the oracle's message
    ([chat_response.choices[0].message.content]) to the returned string. *)
Definition interpret (content : string) : M W string :=
  let assistant_message := strip content in
  match json_loads assistant_message with
  | None => ret ("Model did not return valid JSON:" ++ nl ++ assistant_message)
  | Some parsed =>
      let final_text_chunks := [] in
      let* content_list := lift (get parsed "content" (PyList [])) in
      let* items := lift (iter content_list) in
      let* chunks := for_items items final_text_chunks in
      lift (join nl chunks)
  end.

(** Steps 1 to 3 of [process_query]: the catalogue, the prompt and the
    oracle's message. *)
Definition ask_oracle (query : string) : M W string :=
  let* tools := session_list_tools in
  let available_tools := PyList (map tool_entry tools) in
  let system_prompt := system_prompt query available_tools in
  openai_chat system_prompt (PyStr query).

Definition process_query (query : string) : M W string :=
  let* content := ask_oracle query in
  interpret content.

End Client.
End Client.

(* ================================================================== *)
(** * [celestial_host.py] *)
(* ================================================================== *)

Module Host.
Import Py Runtime.
Local Open Scope py_scope.

Section Host.
Context {W : Type} `{Env W}.

(** The text of the f-string, line by line. *)
Definition prompt_lines (query : string) (catalogue : string) : list string :=
  [ EmptyString;
    "You are a helpful assistant with the ability to call tools.";
    "The user has asked: " ++ query;
    EmptyString;
    "Here are the available tools (name, description, input_schema):";
    catalogue;
    EmptyString;
    "Respond with valid JSON of the form:";
    "{";
    "  " ++ dq ++ "content" ++ dq ++ ": [";
    "    {";
    "      " ++ dq ++ "type" ++ dq ++ ": " ++ dq ++ "text" ++ dq ++ ",";
    "      " ++ dq ++ "text" ++ dq ++ ": " ++ dq ++ "any reply text" ++ dq;
    "    },";
    "    {";
    "      " ++ dq ++ "type" ++ dq ++ ": " ++ dq ++ "tool_use" ++ dq ++ ",";
    "      " ++ dq ++ "name" ++ dq ++ ": " ++ dq ++ "some_tool_name" ++ dq ++ ",";
    "      " ++ dq ++ "input" ++ dq ++ ": { ... }";
    "    }";
    "  ]";
    "}";
    EmptyString;
    "No extra keys. Only valid JSON. The " ++ dq ++ "input" ++ dq
      ++ " object must match the tool's input schema if you call a tool.";
    "If you do not need a tool, just return one item of type "
      ++ dq ++ "text" ++ dq ++ ".";
    "After you have used the tools return the response is a nice human readable form."
      ++ " For example if there are multiple results return a table.";
    "        " ].

(** [query] is whatever the handler took from the request, and the
    f-string renders it with [str()]. *)
Definition system_prompt (query : pyval) (available_tools : pyval) : string :=
  strip (String.concat nl (prompt_lines (str query) (Json.dumps available_tools))).

Definition loop_body (item : pyval) (final_text_chunks : list pyval) :
  M W (list pyval) :=
  let* ty := lift (get item "type" PyNone) in
  if eq_str ty "text" then
    let* text := lift (get item "text" (PyStr EmptyString)) in
    ret (final_text_chunks ++ [text])%list
  else
    let* ty' := lift (get item "type" PyNone) in
    if eq_str ty' "tool_use" then
      let* tool_name := lift (get item "name" PyNone) in
      let* tool_input := lift (get item "input" (PyDict [])) in
      let* printed :=
        print (nl ++ "Executing tool '" ++ str tool_name ++ "' with input "
                 ++ str tool_input ++ "...") in
      try_except
        (let* tool_result := session_call_tool tool_name tool_input in
         ret (final_text_chunks
                ++ [PyStr ("[Tool '" ++ str tool_name ++ "' executed with result: "
                             ++ tool_result ++ "]")])%list)
        (fun e =>
           ret (final_text_chunks
                  ++ [PyStr ("[Error executing tool '" ++ str tool_name ++ "': "
                               ++ exn_str e ++ "]")])%list)
    else
      ret (final_text_chunks ++ [PyStr ("Unrecognized item: " ++ str item)])%list.

Fixpoint for_items (items : list pyval) (final_text_chunks : list pyval) :
  M W (list pyval) :=
  match items with
  | [] => ret final_text_chunks
  | item :: rest =>
      let* chunks := loop_body item final_text_chunks in
      for_items rest chunks
  end.

(** Steps 4 to 6 of [process_query]; here the [get] and the iteration sit
    in the head of the [for]. *)
Definition interpret (content : string) : M W string :=
  let assistant_message := strip content in
  match json_loads assistant_message with
  | None => ret ("Model did not return valid JSON:" ++ nl ++ assistant_message)
  | Some parsed =>
      let final_text_chunks := [] in
      let* items :=
        (let* content_list := lift (get parsed "content" (PyList [])) in
         lift (iter content_list)) in
      let* chunks := for_items items final_text_chunks in
      lift (join nl chunks)
  end.

Definition ask_oracle (query : pyval) : M W string :=
  let* tools := session_list_tools in
  let available_tools := PyList (map tool_entry tools) in
  let system_prompt := system_prompt query available_tools in
  openai_chat system_prompt query.

Definition process_query (query : pyval) : M W string :=
  let* content := ask_oracle query in
  interpret content.

Definition prettify_prompt_lines (query : string) : list string :=
  [ EmptyString;
    "You are a helpful assistant that will receive JSON and format the output"
      ++ " into a nice human readable string or table based on the json received.";
    "The user has asked: " ++ query;
    "Return the output as a nice string or table result.";
    "        " ].

Definition prettify_prompt (query : string) : string :=
  strip (String.concat nl (prettify_prompt_lines query)).

(** [prettify_output]: one more oracle call, on the answer of the
    negotiation step; nothing catches its failure. *)
Definition prettify_output (query : string) : M W string :=
  let system_prompt := prettify_prompt query in
  let* content := openai_chat system_prompt (PyStr query) in
  let assistant_message := strip content in
  ret assistant_message.

(** What [handle_query] reads of the request: the method, the query
    parameters as [query_params.get] sees them, and the outcome of
    [await request.json()]. *)
Record Request : Type := {
  method : string;
  query_param : string -> option string;
  json_body : result pyval;
}.

(** [handle_query]; the value returned is the content of the
    [JSONResponse]. *)
Definition query_of (request : Request) : result pyval :=
  if String.eqb (method request) "GET" then
    Returned (match query_param request "q" with
              | Some v => PyStr v
              | None => PyStr EmptyString
              end)
  else
    match json_body request with
    | Returned body => get body "q" (PyStr EmptyString)
    | Raised e => Raised e
    end.

Definition handle_query (request : Request) : M W pyval :=
  let* q := lift (query_of request) in
  let* response_text := process_query q in
  let* nice_output := prettify_output response_text in
  ret (PyDict [("result", PyStr nice_output)]).

End Host.
End Host.

(* ================================================================== *)
(** * [celestial_engine.py] *)
(* ================================================================== *)

Module Engine.
Import Py.

(** A query parameter is a string or, for [depression] and [altitude], an
    integer. *)
Inductive param : Type :=
| PString (s : string)
| PInteger (z : Z).

(** The arguments of [client.get], the timeout in seconds. *)
Record HttpRequest : Type := {
  url : string;
  params : option (gmap string param);
  headers : gmap string string;
  timeout : Z;
}.

Record PhenomenaArgs : Type := {
  body : string;
  phenomena : string;
  latitude : string;
  longitude : string;
  startDate : string;
  endDate : string;
  timezone : option string;
  useBst : option bool;
  depression : option Z;
  altitude : option Z;
}.

Record MoonVisibilityArgs : Type := {
  mv_latitude : string;
  mv_longitude : string;
  mv_startDate : string;
  mv_endDate : string;
  mv_timezone : string;
}.

Section Engine.

(** The two module-level settings, read from the environment at import. *)
Variable CELESTIAL_BASE_URL : string.
Variable SUBSCRIPTION_KEY : string.

(** The remote service: the JSON of the reply, or the exception of
    [client.get], [raise_for_status] or [resp.json]. *)
Context {W : Type}.
Variable http_get : HttpRequest -> W -> result pyval * W.

(** The state of a tool call: the world and the requests sent so far. *)
Record state : Type := {
  world : W;
  sent : list HttpRequest;
}.

Definition celestial_request (endpoint : string)
    (params : option (gmap string param)) (st : state) : result pyval * state :=
  let headers : gmap string string := ∅ in
  let headers :=
    if negb (String.eqb SUBSCRIPTION_KEY EmptyString)
    then <["Ocp-Apim-Subscription-Key" := SUBSCRIPTION_KEY]> headers
    else headers in
  let url := CELESTIAL_BASE_URL ++ endpoint in
  let request :=
    {| url := url; params := params; headers := headers; timeout := 30 |} in
  let '(r, w) := http_get request (world st) in
  (r, {| world := w; sent := (sent st ++ [request])%list |}).

(** [json.dumps(data, indent=2)] of what [celestial_request] returned. *)
Definition dump_reply (r : result pyval * state) : result string * state :=
  match r with
  | (Returned data, st) => (Returned (Json.dumps data), st)
  | (Raised e, st) => (Raised e, st)
  end.

Definition list_celestial_bodies (st : state) : result string * state :=
  dump_reply (celestial_request "/celestial-bodies" None st).

Definition list_phenomena (body : string) (st : state) : result string * state :=
  let endpoint := "/celestial-bodies/" ++ body ++ "/phenomena" in
  dump_reply (celestial_request endpoint None st).

(** The [params] dict of [get_phenomena], after the four [if]s. *)
Definition get_phenomena_params (args : PhenomenaArgs) : gmap string param :=
  let params : gmap string param :=
    <["endDate" := PString (endDate args)]>
      (<["startDate" := PString (startDate args)]>
         (<["longitude" := PString (longitude args)]>
            (<["latitude" := PString (latitude args)]> ∅))) in
  let params :=
    match timezone args with
    | Some tz => <["timezone" := PString tz]> params
    | None => params
    end in
  let params :=
    match useBst args with
    | Some b => <["useBst" := PString (lower (str (PyBool b)))]> params
    | None => params
    end in
  let params :=
    match depression args with
    | Some d => <["depression" := PInteger d]> params
    | None => params
    end in
  let params :=
    match altitude args with
    | Some a => <["altitude" := PInteger a]> params
    | None => params
    end in
  params.

Definition get_phenomena (args : PhenomenaArgs) (st : state) : result string * state :=
  let endpoint :=
    "/celestial-bodies/" ++ body args ++ "/phenomena/" ++ phenomena args in
  dump_reply (celestial_request endpoint (Some (get_phenomena_params args)) st).

Definition moon_visibility (args : MoonVisibilityArgs) (st : state) :
  result string * state :=
  let endpoint := "/moon-visibility" in
  let params : gmap string param :=
    <["timezone" := PString (mv_timezone args)]>
      (<["endDate" := PString (mv_endDate args)]>
         (<["startDate" := PString (mv_startDate args)]>
            (<["longitude" := PString (mv_longitude args)]>
               (<["latitude" := PString (mv_latitude args)]> ∅)))) in
  dump_reply (celestial_request endpoint (Some params) st).

End Engine.
End Engine.

(* ================================================================== *)
(** * A scripted world for running the code *)
(* ================================================================== *)

(** Test doubles, as a unit test of the client would patch them in: the
    oracle answers from a script, the channel knows one tool and raises
    for every other name (a stub: it does not stand for what the session
    of the [mcp] package does with an unknown name), and [json.loads] is
    [Json.loads]. *)
Module Double.
Import Py Runtime.

(** The replies the oracle still has to give, oldest first; with none left
    the call fails. *)
Definition script : Type := list (result string).

Definition catalogue : list Tool :=
  [ {| name := "list_celestial_bodies";
       description := "GET /celestial-bodies";
       inputSchema :=
         PyDict [("properties", PyDict []);
                 ("title", PyStr "list_celestial_bodiesArguments");
                 ("type", PyStr "object")] |};
    {| name := "list_phenomena";
       description := "GET /celestial-bodies/{body}/phenomena";
       inputSchema :=
         PyDict [("properties",
                  PyDict [("body", PyDict [("title", PyStr "Body");
                                           ("type", PyStr "string")])]);
                 ("required", PyList [PyStr "body"]);
                 ("title", PyStr "list_phenomenaArguments");
                 ("type", PyStr "object")] |} ].

Definition scripted_oracle (system_prompt : string) (user : pyval) (w : script) :
  result string * script :=
  match w with
  | reply :: w' => (reply, w')
  | [] => (Raised (OtherError "Connection error."), [])
  end.

Definition one_tool (tool_name tool_input : pyval) (w : script) :
  result string * script :=
  if eq_str tool_name "list_celestial_bodies" then (Returned "R", w)
  else (Raised (OtherError ("Unknown tool: " ++ str tool_name)), w).

#[export] Instance env : Env script := {|
  json_loads := Json.loads;
  list_tools := fun w => (Returned catalogue, w);
  call_tool := one_tool;
  chat_completion := scripted_oracle;
|}.

Definition start (w : script) : state script :=
  {| world := w; calls := []; stdout := [] |}.

(** Content items to run the loop on. *)
Definition say (text : string) : pyval :=
  PyDict [("type", PyStr "text"); ("text", PyStr text)].

Definition use (tool_name : string) : pyval :=
  PyDict [("type", PyStr "tool_use"); ("name", PyStr tool_name)].

Definition use_with (tool_name : string) (input : pyval) : pyval :=
  PyDict [("type", PyStr "tool_use"); ("name", PyStr tool_name); ("input", input)].

(** A GET request with the query parameter [q]. *)
Definition get_request (q : string) : Host.Request :=
  {| Host.method := "GET";
     Host.query_param := fun k => if String.eqb k "q" then Some q else None;
     Host.json_body := Raised (OtherError "no body") |}.

(** Writes a JSON text with apostrophes where the double quotes go. *)
Fixpoint js (s : string) : string :=
  match s with
  | String c s' => String (if Ascii.eqb c "'"%char then ascii_of_nat 34 else c) (js s')
  | EmptyString => EmptyString
  end.

End Double.

(* ================================================================== *)
(** * The specification's reading of a response *)
(* ================================================================== *)

(** Definitions that follow the words of the specification (sections 3,
    4.4 and 8), to compare the code with. *)
Module Spec.
Import Py Runtime.

Inductive ContentItem : Type :=
| Text (text : string)
| ToolUse (name : string) (input : pyval)
| Unrecognized (raw : pyval).

(** The ContentItem an element of [content] stands for: an object whose
    [type] is ["text"] (its [text] a string, the empty one when absent), an
    object whose [type] is ["tool_use"] (with a string [name] and an object
    [input]), or any other object. *)
Definition as_item (item : pyval) : option ContentItem :=
  match item with
  | PyDict d =>
      let ty := match dict_lookup "type" d with Some t => t | None => PyNone end in
      if eq_str ty "text" then
        match dict_lookup "text" d with
        | Some (PyStr t) => Some (Text t)
        | None => Some (Text EmptyString)
        | Some _ => None
        end
      else if eq_str ty "tool_use" then
        match dict_lookup "name" d, dict_lookup "input" d with
        | Some (PyStr n), Some (PyDict i) => Some (ToolUse n (PyDict i))
        | _, _ => None
        end
      else Some (Unrecognized item)
  | _ => None
  end.

Definition is_object (item : pyval) : bool :=
  match item with PyDict _ => true | _ => false end.

(** The line a tool invocation contributes, by its outcome. *)
Definition tool_line (tool_name : string) (r : result string) : string :=
  match r with
  | Returned res => "[Tool '" ++ tool_name ++ "' executed with result: " ++ res ++ "]"
  | Raised e => "[Error executing tool '" ++ tool_name ++ "': " ++ exn_str e ++ "]"
  end.

(** What the code prints before it calls a tool. *)
Definition announcement (tool_name tool_input : pyval) : string :=
  nl ++ "Executing tool '" ++ str tool_name ++ "' with input "
     ++ str tool_input ++ "...".

Section Answer.
Context {W : Type} `{Env W}.

(** Section 4.4, step 3: one line per item, in order, the tools called one
    after the other. *)
Fixpoint answer_lines (items : list ContentItem) (w : W) : list string * W :=
  match items with
  | [] => ([], w)
  | Text t :: rest =>
      let '(lines, w') := answer_lines rest w in (t :: lines, w')
  | ToolUse n i :: rest =>
      let '(r, w1) := call_tool (PyStr n) i w in
      let '(lines, w') := answer_lines rest w1 in (tool_line n r :: lines, w')
  | Unrecognized raw :: rest =>
      let '(lines, w') := answer_lines rest w in
      (("Unrecognized item: " ++ str raw) :: lines, w')
  end.

(** Step 4: the lines joined by newlines. *)
Definition FinalAnswer (items : list ContentItem) (w : W) : string :=
  String.concat nl (fst (answer_lines items w)).

End Answer.

(** The tool invocations a content sequence asks for, in order. *)
Fixpoint invocations (items : list ContentItem) : list (pyval * pyval) :=
  match items with
  | [] => []
  | ToolUse n i :: rest => (PyStr n, i) :: invocations rest
  | _ :: rest => invocations rest
  end.

(** Reading the catalogue back from the parsed JSON array: each element an
    object with a string [name], a string [description] and an
    [input_schema]. *)
Definition as_tool (entry : pyval) : option Tool :=
  match entry with
  | PyDict d =>
      match dict_lookup "name" d, dict_lookup "description" d,
            dict_lookup "input_schema" d with
      | Some (PyStr n), Some (PyStr ds), Some schema =>
          Some {| name := n; description := ds; inputSchema := schema |}
      | _, _, _ => None
      end
  | _ => None
  end.

Definition parse_catalogue (v : pyval) : option (list Tool) :=
  match v with
  | PyList entries => mapM as_tool entries
  | _ => None
  end.

(** A value is well formed when no [dict] in it has a key twice, which is
    so of every Python [dict]. *)
Fixpoint distinct (keys : list string) : bool :=
  match keys with
  | [] => true
  | k :: rest => negb (existsb (String.eqb k) rest) && distinct rest
  end.

Fixpoint wf (v : pyval) : bool :=
  match v with
  | PyList l => forallb wf l
  | PyDict d => distinct (map fst d) && forallb (fun '(_, x) => wf x) d
  | _ => true
  end.

(** The decoder reads back a value the encoder wrote, at any nesting
    depth and before any delimiter, given fuel for the length of the
    text. *)
Definition round_trips (v : pyval) : Prop :=
  wf v = true ->
  forall (level fuel : nat) (rest : list Ascii.ascii),
    (length (Json.encode level v) <= fuel)%nat ->
    Json.delimited rest = true ->
    Json.scan_once fuel (Json.encode level v ++ rest)%list = Some (v, rest).

End Spec.

(* ================================================================== *)
(** * The shape of a response *)
(* ================================================================== *)

(** Predicates on the decoded response that the loop of [process_query]
    branches on, for stating what it does on every value. *)
Module Shape.
Import Py Runtime.

Definition is_str (v : pyval) : bool :=
  match v with PyStr _ => true | _ => false end.

(** [item.get("type")] *)
Definition item_type (d : dict) : pyval := default PyNone (dict_lookup "type" d).

(** An item the loop and the final join get through: an object, and when
    its type is ["text"] its text is a string or absent. *)
Definition item_ok (item : pyval) : bool :=
  match item with
  | PyDict d =>
      if eq_str (item_type d) "text"
      then is_str (default (PyStr EmptyString) (dict_lookup "text" d))
      else true
  | _ => false
  end.

(** A decoded response the interpretation step answers: an object whose
    [content], the empty list when absent, can be iterated and yields only
    items that are [item_ok]. *)
Definition answerable (parsed : pyval) : bool :=
  match parsed with
  | PyDict d =>
      match iter (default (PyList []) (dict_lookup "content" d)) with
      | Returned items => forallb item_ok items
      | Raised _ => false
      end
  | _ => false
  end.

Definition is_tool_use (item : pyval) : bool :=
  match item with
  | PyDict d => negb (eq_str (item_type d) "text") && eq_str (item_type d) "tool_use"
  | _ => false
  end.

(** The name and the arguments a [tool_use] item is called with. *)
Definition call_of (item : pyval) : pyval * pyval :=
  match item with
  | PyDict d =>
      (default PyNone (dict_lookup "name" d),
       default (PyDict []) (dict_lookup "input" d))
  | _ => (PyNone, PyNone)
  end.

(** A string of white space only. *)
Fixpoint blank (s : string) : bool :=
  match s with
  | String c s' => isspace c && blank s'
  | EmptyString => true
  end.

Definition requested_calls (items : list pyval) : list (pyval * pyval) :=
  map call_of (List.filter is_tool_use items).

Definition announcements (items : list pyval) : list string :=
  map (fun item => Spec.announcement (fst (call_of item)) (snd (call_of item)))
      (List.filter is_tool_use items).

End Shape.

(* ================================================================== *)
(** * [celestial_client.py]: the command line *)
(* ================================================================== *)

(** [MCPClient.__init__], [connect_to_server], [chat_loop], [cleanup] and
    [main].  [ValueError] and [EOFError] are [OtherError] here, with their
    messages.  Every exception of the model is an [Exception]:
    [KeyboardInterrupt] and the cancellation of the task, which
    [except Exception] lets through, are outside it, so nothing here says
    that [chat_loop] cannot raise. *)
Module Cli.
Import Py Runtime.

(** The async context managers [connect_to_server] enters on the exit
    stack. *)
Inductive resource : Type :=
| StdioTransport
| Session.

(** What the start-up reaches of the [mcp] package and the interpreter:
    [sys.executable], entering [stdio_client(server_params)] (given the
    command and its arguments) and [ClientSession(stdio, write)],
    [session.initialize()], and leaving a context, which is taken not to
    raise. *)
Class Transport (W : Type) : Type := {
  sys_executable : string;
  stdio_client : string -> list string -> W -> result unit * W;
  client_session : W -> result unit * W;
  initialize : W -> result unit * W;
  close : resource -> W -> W;
}.

(** The two module attributes of [openai] that [__init__] may set;
    [api_base] is [None] while the library's default stands. *)
Record settings : Type := {
  api_key : string;
  api_base : option string;
}.

(** [s.endswith(suffix)] *)
Definition endswith (s suffix : string) : bool :=
  let n := String.length s in
  let m := String.length suffix in
  (m <=? n)%nat && String.eqb (substring (n - m) m s) suffix.

Section Cli.
Context {W : Type} `{Env W} `{Transport W}.

(** The process: the state of the query cycles, the lines still to be read
    from standard input, the [openai] settings, the exit stack (the context
    entered last comes first), and the contexts entered and left so far,
    oldest first. *)
Record process : Type := {
  cycle : state W;
  stdin : list string;
  openai : settings;
  exit_stack : list resource;
  entered : list resource;
  exited : list resource;
}.

Definition P (A : Type) : Type := process -> result A * process.

Definition pret {A} (a : A) : P A := fun p => (Returned a, p).

Definition pbind {A B} (m : P A) (k : A -> P B) : P B :=
  fun p =>
    match m p with
    | (Returned a, p') => k a p'
    | (Raised e, p') => (Raised e, p')
    end.

(** [try: body / except Exception as e: handler(e)] *)
Definition ptry {A} (body : P A) (handler : exn -> P A) : P A :=
  fun p =>
    match body p with
    | (Returned a, p') => (Returned a, p')
    | (Raised e, p') => handler e p'
    end.

Definition with_cycle (p : process) (st : state W) : process :=
  {| cycle := st; stdin := stdin p; openai := openai p;
     exit_stack := exit_stack p; entered := entered p; exited := exited p |}.

(** A step of the query cycle, run in the process. *)
Definition on_cycle {A} (m : M W A) : P A :=
  fun p => let '(r, st) := m (cycle p) in (r, with_cycle p st).

Definition on_transport (f : W -> result unit * W) : P unit :=
  on_cycle (on_world f).

(** [await self.exit_stack.enter_async_context(cm)]: the context is pushed
    once it has been entered. *)
Definition enter_async_context (r : resource) (enter : W -> result unit * W) :
  P unit :=
  fun p =>
    match on_transport enter p with
    | (Returned _, p') =>
        (Returned tt,
         {| cycle := cycle p'; stdin := stdin p'; openai := openai p';
            exit_stack := r :: exit_stack p';
            entered := (entered p' ++ [r])%list; exited := exited p' |})
    | (Raised e, p') => (Raised e, p')
    end.

(** [await self.exit_stack.aclose()]: the contexts are left, the last
    entered first. *)
Fixpoint leave (stack : list resource) (w : W) : W :=
  match stack with
  | [] => w
  | r :: rest => leave rest (close r w)
  end.

Definition aclose (p : process) : process :=
  {| cycle := {| world := leave (exit_stack p) (world (cycle p));
                 calls := calls (cycle p);
                 stdout := stdout (cycle p) |};
     stdin := stdin p; openai := openai p;
     exit_stack := [];
     entered := entered p;
     exited := (exited p ++ exit_stack p)%list |}.

(** [MCPClient.__init__], given [os.getenv]. *)
Definition init (getenv : string -> option string) : P unit :=
  fun p =>
    let key := default EmptyString (getenv "OPENAI_API_KEY") in
    let p0 :=
      {| cycle := cycle p; stdin := stdin p;
         openai := {| api_key := key; api_base := api_base (openai p) |};
         exit_stack := []; entered := entered p; exited := exited p |} in
    if String.eqb key EmptyString then
      (Raised (OtherError "No OPENAI_API_KEY found in environment (or .env)."), p0)
    else
      match getenv "OPENAI_API_BASE" with
      | Some custom_base =>
          if String.eqb custom_base EmptyString then (Returned tt, p0)
          else
            (Returned tt,
             {| cycle := cycle p0; stdin := stdin p0;
                openai := {| api_key := key; api_base := Some custom_base |};
                exit_stack := exit_stack p0;
                entered := entered p0; exited := exited p0 |})
      | None => (Returned tt, p0)
      end.

Notation "'let!' x ':=' m 'in' k" := (pbind m (fun x => k))
  (at level 10, x name, m at level 100, k at level 200).

Definition connect_to_server (server_script_path : string) : P unit :=
  if negb (endswith server_script_path ".py") then
    fun p => (Raised (OtherError "Please provide a .py server script."), p)
  else
    let python_executable := sys_executable in
    let! stdio_transport :=
      enter_async_context StdioTransport
        (stdio_client python_executable [server_script_path]) in
    let! session := enter_async_context Session client_session in
    let! initialized := on_transport initialize in
    let! tools := on_cycle session_list_tools in
    on_cycle
      (print (nl ++ "Connected to server with tools: "
                 ++ str (PyList (map (fun tool => PyStr (name tool)) tools)))).

(** [input(prompt)]: the prompt is written, then a line is read; at the end
    of the input [EOFError] is raised. *)
Definition input (prompt : string) : P string :=
  fun p =>
    let '(_, st) := print prompt (cycle p) in
    match stdin p with
    | line :: rest =>
        (Returned line,
         {| cycle := st; stdin := rest; openai := openai p;
            exit_stack := exit_stack p; entered := entered p; exited := exited p |})
    | [] => (Raised (OtherError "EOF when reading a line"), with_cycle p st)
    end.

(** One turn of [while True]: [true] stands for [break]. *)
Definition turn : P bool :=
  ptry
    (let! line := input (nl ++ "Query: ") in
     let query := strip line in
     if String.eqb (lower query) "quit" then pret true
     else
       let! response := on_cycle (Client.process_query query) in
       let! printed := on_cycle (print (nl ++ "Response:" ++ nl ++ response)) in
       pret false)
    (fun e =>
       let! printed :=
         on_cycle (print (nl ++ "Error processing query: " ++ exn_str e)) in
       pret false).

(** [while True], for at most [fuel] turns; [None] when they are used up. *)
Fixpoint while_true (fuel : nat) (p : process) : option (result unit * process) :=
  match fuel with
  | O => None
  | S f =>
      match turn p with
      | (Returned true, p') => Some (Returned tt, p')
      | (Returned false, p') => while_true f p'
      | (Raised e, p') => Some (Raised e, p')
      end
  end.

Definition chat_loop (fuel : nat) (p : process) : option (result unit * process) :=
  let '(_, st) :=
    print (nl ++ "MCP Client Started! Type your query or 'quit' to exit.") (cycle p) in
  while_true fuel (with_cycle p st).

Definition cleanup : P unit := fun p => (Returned tt, aclose p).

(** [main]: [try: connect, chat / finally: cleanup], after the client has
    been built. *)
Definition main (fuel : nat) (getenv : string -> option string) (p : process) :
  option (result unit * process) :=
  let server_script_path := "celestial_engine.py" in
  match init getenv p with
  | (Raised e, p0) => Some (Raised e, p0)
  | (Returned _, p0) =>
      let attempt :=
        match connect_to_server server_script_path p0 with
        | (Returned _, p1) => chat_loop fuel p1
        | (Raised e, p1) => Some (Raised e, p1)
        end in
      match attempt with
      | Some (Returned _, p2) => Some (cleanup p2)
      | Some (Raised e, p2) =>
          let '(_, p3) := cleanup p2 in Some (Raised e, p3)
      | None => None
      end
  end.

(** A line that ends the chat. *)
Definition is_quit (line : string) : bool := String.eqb (lower (strip line)) "quit".

(** What a turn does with a line that is no [quit]: the prompt, the query
    cycle, and the response or the error printed. *)
Definition serve (line : string) (st : state W) : state W :=
  let '(_, st0) := print (nl ++ "Query: ") st in
  match Client.process_query (strip line) st0 with
  | (Returned response, st1) => snd (print (nl ++ "Response:" ++ nl ++ response) st1)
  | (Raised e, st1) => snd (print (nl ++ "Error processing query: " ++ exn_str e) st1)
  end.

End Cli.
End Cli.

(** A transport for the scripted world: the session can be made to fail
    on entry. *)
Module Stage.
Import Py Runtime Double Cli.

Definition transport (session_ok : bool) : Transport script := {|
  sys_executable := "/usr/bin/python3";
  stdio_client := fun command args w => (Returned tt, w);
  client_session := fun w =>
    if session_ok then (Returned tt, w)
    else (Raised (OtherError "Connection closed"), w);
  initialize := fun w => (Returned tt, w);
  close := fun r w => w;
|}.

Definition boot (w : script) (lines : list string) : @process script :=
  {| cycle := start w; stdin := lines;
     openai := {| api_key := EmptyString; api_base := None |};
     exit_stack := []; entered := []; exited := [] |}.

Definition environment (key : string) (variable : string) : option string :=
  if String.eqb variable "OPENAI_API_KEY" then Some key else None.

(** The scripted world with a tool channel that is down. *)
Definition offline : Env script := {|
  json_loads := Json.loads;
  list_tools := fun w => (Raised (OtherError "Connection closed"), w);
  call_tool := one_tool;
  chat_completion := scripted_oracle;
|}.

(** The scripted world with a session that has lost its server: every
    tool call raises. *)
Definition hung_up : Env script := {|
  json_loads := Json.loads;
  list_tools := fun w => (Returned catalogue, w);
  call_tool := fun tool_name tool_input w => (Raised (OtherError "Connection closed"), w);
  chat_completion := scripted_oracle;
|}.

(** A tool channel that does not raise for a name it does not know: the
    call returns a result that reports the error. *)
Definition reporting_tool (tool_name tool_input : pyval) (w : script) :
  result string * script :=
  if eq_str tool_name "list_celestial_bodies" then (Returned "R", w)
  else
    (Returned ("meta=None content=[TextContent(type='text', text='Unknown tool: "
                 ++ str tool_name ++ "', annotations=None)] isError=True"), w).

Definition reporting : Env script := {|
  json_loads := Json.loads;
  list_tools := fun w => (Returned catalogue, w);
  call_tool := reporting_tool;
  chat_completion := scripted_oracle;
|}.

(** A POST request with the given JSON body. *)
Definition post_request (body : pyval) : Host.Request :=
  {| Host.method := "POST";
     Host.query_param := fun k => None;
     Host.json_body := Returned body |}.

(** A remote service that gives every request the same outcome. *)
Definition service (outcome : result pyval) (request : Engine.HttpRequest) (w : unit) :
  result pyval * unit :=
  (outcome, w).

Definition idle : Engine.state (W := unit) := {| Engine.world := tt; Engine.sent := [] |}.

End Stage.

(* ================================================================== *)
(** * Properties *)
(* ================================================================== *)

Import Py Runtime.

Section Negotiation.
Context {W : Type} `{Env W}.

Lemma bind_returned {A B} (m : M W A) (k : A -> M W B) st a st' :
  m st = (Returned a, st') -> bind m k st = k a st'.
Proof. intros Hm. unfold bind. now rewrite Hm. Qed.

Lemma bind_raised {A B} (m : M W A) (k : A -> M W B) st e st' :
  m st = (Raised e, st') -> bind m k st = (Raised e, st').
Proof. intros Hm. unfold bind. now rewrite Hm. Qed.

Lemma bind_lift_returned {A B} (a : A) (k : A -> M W B) st :
  bind (lift (Returned a)) k st = k a st.
Proof. reflexivity. Qed.

(** The two loop bodies are the same function. *)
Lemma loop_body_same item chunks st :
  Host.loop_body item chunks st = Client.loop_body item chunks st.
Proof. reflexivity. Qed.

Lemma for_items_same items : forall chunks st,
  Host.for_items items chunks st = Client.for_items items chunks st.
Proof.
  induction items as [|item rest IH]; intros chunks st; simpl; [reflexivity|].
  unfold bind. rewrite loop_body_same.
  destruct (Client.loop_body item chunks st) as [[cs|e] st']; [apply IH|reflexivity].
Qed.

Lemma interpret_same content st :
  Host.interpret content st = Client.interpret content st.
Proof.
  unfold Host.interpret, Client.interpret.
  destruct (json_loads (strip content)) as [parsed|]; [|reflexivity].
  unfold bind, lift.
  destruct (get parsed "content" (PyList [])) as [content_list|e]; [|reflexivity].
  destruct (iter content_list) as [items|e]; [|reflexivity].
  now rewrite for_items_same.
Qed.

(** Steps 1 to 3 call no tool and print nothing. *)
Lemma client_ask_oracle_quiet query st r st' :
  Client.ask_oracle query st = (r, st') ->
  calls st' = calls st /\ stdout st' = stdout st.
Proof.
  unfold Client.ask_oracle, bind, session_list_tools, openai_chat, on_world.
  destruct (list_tools (world st)) as [[tools|e] w1]; simpl.
  - destruct (chat_completion _ _ w1) as [r' w2]. intros [= <- <-]. now simpl.
  - intros [= <- <-]. now simpl.
Qed.


Lemma host_ask_oracle_quiet query st r st' :
  Host.ask_oracle query st = (r, st') ->
  calls st' = calls st /\ stdout st' = stdout st.
Proof.
  unfold Host.ask_oracle, bind, session_list_tools, openai_chat, on_world.
  destruct (list_tools (world st)) as [[tools|e] w1]; simpl.
  - destruct (chat_completion _ _ w1) as [r' w2]. intros [= <- <-]. now simpl.
  - intros [= <- <-]. now simpl.
Qed.

(** Text that [json.loads] refuses comes back behind the fixed prefix, and
    the state is left as it was. *)
Lemma interpret_fallback content st :
  json_loads (strip content) = None ->
  Client.interpret content st
  = (Returned ("Model did not return valid JSON:" ++ nl ++ strip content), st).
Proof. intros Hj. unfold Client.interpret. now rewrite Hj. Qed.

(** JSON that is not an object makes [parsed.get] raise. *)
Lemma interpret_not_object content st parsed :
  json_loads (strip content) = Some parsed ->
  Spec.is_object parsed = false ->
  Client.interpret content st = (Raised (no_attribute parsed "get"), st).
Proof.
  intros Hj Hobj. unfold Client.interpret. rewrite Hj.
  destruct parsed; try reflexivity. discriminate.
Qed.

(** ** The loop over the content items *)

Lemma loop_body_acc item acc st :
  Client.loop_body item acc st
  = match Client.loop_body item [] st with
    | (Returned cs, st') => (Returned (acc ++ cs)%list, st')
    | (Raised e, st') => (Raised e, st')
    end.
Proof.
  unfold Client.loop_body, bind, lift, try_except, ret, print.
  destruct (get item "type" PyNone) as [ty|e]; [|reflexivity].
  destruct (eq_str ty "text").
  - destruct (get item "text" (PyStr EmptyString)); reflexivity.
  - destruct (eq_str ty "tool_use"); [|reflexivity].
    destruct (get item "name" PyNone) as [nm|e]; [|reflexivity].
    destruct (get item "input" (PyDict [])) as [inp|e]; [|reflexivity].
    destruct (session_call_tool nm inp _) as [[res|e] st']; reflexivity.
Qed.

Lemma for_items_acc items : forall acc st,
  Client.for_items items acc st
  = match Client.for_items items [] st with
    | (Returned cs, st') => (Returned (acc ++ cs)%list, st')
    | (Raised e, st') => (Raised e, st')
    end.
Proof.
  induction items as [|item rest IH]; intros acc st; simpl.
  - unfold ret. now rewrite app_nil_r.
  - unfold bind. rewrite (loop_body_acc item acc st).
    destruct (Client.loop_body item [] st) as [[cs|e] st']; [|reflexivity].
    rewrite (IH (acc ++ cs)%list st'), (IH cs st').
    destruct (Client.for_items rest [] st') as [[cs'|e] st'']; [|reflexivity].
    simpl. now rewrite app_assoc.
Qed.

Lemma for_items_app xs ys : forall acc st,
  Client.for_items (xs ++ ys) acc st
  = match Client.for_items xs acc st with
    | (Returned cs, st') => Client.for_items ys cs st'
    | (Raised e, st') => (Raised e, st')
    end.
Proof.
  induction xs as [|x xs IH]; intros acc st; simpl; [reflexivity|].
  unfold bind. destruct (Client.loop_body x acc st) as [[cs|e] st']; [apply IH|reflexivity].
Qed.

(** An object always yields exactly one chunk. *)
Lemma loop_body_object d st :
  exists c st', Client.loop_body (PyDict d) [] st = (Returned [c], st').
Proof.
  unfold Client.loop_body, bind, lift, try_except, ret, print, get.
  destruct (eq_str _ "text"); [eauto|].
  destruct (eq_str _ "tool_use"); [|eauto].
  destruct (session_call_tool _ _ _) as [[res|e] st']; eauto.
Qed.

Lemma for_items_objects items : forall st,
  forallb Spec.is_object items = true ->
  exists cs st', Client.for_items items [] st = (Returned cs, st')
                 /\ length cs = length items.
Proof.
  induction items as [|item rest IH]; intros st Hobj; simpl in *.
  - exists [], st. now split.
  - apply andb_prop in Hobj as [Hitem Hrest].
    destruct item; try discriminate.
    destruct (loop_body_object d st) as (c & st1 & Hc).
    destruct (IH st1 Hrest) as (cs & st2 & Hcs & Hlen).
    exists (c :: cs), st2. unfold bind. rewrite Hc, for_items_acc, Hcs.
    simpl. now rewrite Hlen.
Qed.

Lemma for_items_length items st cs st' :
  forallb Spec.is_object items = true ->
  Client.for_items items [] st = (Returned cs, st') ->
  length cs = length items.
Proof.
  intros Hobj Hrun. destruct (for_items_objects items st Hobj) as (cs' & st'' & Heq & Hlen).
  rewrite Hrun in Heq. now injection Heq as -> _.
Qed.

(** A [tool_use] object: the call is announced and made, and its outcome,
    result or exception, becomes the chunk. *)
Lemma loop_body_tool_use d acc st :
  dict_lookup "type" d = Some (PyStr "tool_use") ->
  let tool_name := default PyNone (dict_lookup "name" d) in
  let tool_input := default (PyDict []) (dict_lookup "input" d) in
  Client.loop_body (PyDict d) acc st
  = (Returned (acc ++ [PyStr (Spec.tool_line (str tool_name)
                                (fst (call_tool tool_name tool_input (world st))))])%list,
     {| world := snd (call_tool tool_name tool_input (world st));
        calls := (calls st ++ [(tool_name, tool_input)])%list;
        stdout := (stdout st ++ [Spec.announcement tool_name tool_input])%list |}).
Proof.
  intros Hty tool_name tool_input.
  unfold Client.loop_body, bind, lift, try_except, ret, print, get, session_call_tool.
  rewrite Hty. simpl.
  fold tool_name tool_input.
  destruct (dict_lookup "name" d), (dict_lookup "input" d); simpl in *;
    destruct (call_tool _ _ (world st)) as [[res|e] w]; reflexivity.
Qed.

Lemma join_strings_strs ls : forall i, join_strings i (map PyStr ls) = Returned ls.
Proof.
  induction ls as [|l ls IH]; intros i; simpl; [reflexivity|]. now rewrite IH.
Qed.

Lemma join_strs sep ls : join sep (map PyStr ls) = Returned (String.concat sep ls).
Proof. unfold join. now rewrite join_strings_strs. Qed.

(** On an item of the specification's data model the loop body appends the
    line the specification gives it. *)
Lemma loop_body_item item ci acc st :
  Spec.as_item item = Some ci ->
  exists st',
    Client.loop_body item acc st
    = (Returned (acc ++ map PyStr (fst (Spec.answer_lines [ci] (world st))))%list, st')
    /\ world st' = snd (Spec.answer_lines [ci] (world st))
    /\ calls st' = (calls st ++ Spec.invocations [ci])%list.
Proof.
  destruct item as [| | | | |d]; try discriminate. unfold Spec.as_item.
  destruct (eq_str (match dict_lookup "type" d with Some t => t | None => PyNone end) "text")
    eqn:Htext.
  - intros Hci. exists st.
    unfold Client.loop_body, bind, lift, ret, get. rewrite Htext.
    destruct (dict_lookup "text" d) as [[| | |t| |]|]; try discriminate;
      injection Hci as <-; simpl; now rewrite app_nil_r.
  - destruct (eq_str _ "tool_use") eqn:Htool.
    + destruct (dict_lookup "type" d) as [[| | |ty| |]|] eqn:Hty; try discriminate.
      simpl in Htool. apply String.eqb_eq in Htool as ->.
      destruct (dict_lookup "name" d) as [[| | |n| |]|] eqn:Hn; try discriminate.
      destruct (dict_lookup "input" d) as [[| | | | |i]|] eqn:Hi; try discriminate.
      intros [= <-]. rewrite (loop_body_tool_use d acc st Hty).
      rewrite Hn, Hi. simpl.
      destruct (call_tool (PyStr n) (PyDict i) (world st)) as [r w]. simpl.
      eexists. split; [reflexivity|]. now split.
    + intros [= <-]. exists st.
      unfold Client.loop_body, bind, lift, ret, get. rewrite Htext, Htool.
      simpl. now rewrite app_nil_r.
Qed.

Lemma answer_lines_cons ci cis (w : W) :
  Spec.answer_lines (ci :: cis) w
  = ((fst (Spec.answer_lines [ci] w)
        ++ fst (Spec.answer_lines cis (snd (Spec.answer_lines [ci] w))))%list,
     snd (Spec.answer_lines cis (snd (Spec.answer_lines [ci] w)))).
Proof.
  destruct ci as [t|n i|raw]; simpl.
  - now destruct (Spec.answer_lines cis w).
  - destruct (call_tool (PyStr n) i w) as [r w1]. simpl.
    now destruct (Spec.answer_lines cis w1).
  - now destruct (Spec.answer_lines cis w).
Qed.

Lemma invocations_cons ci cis :
  Spec.invocations (ci :: cis) = (Spec.invocations [ci] ++ Spec.invocations cis)%list.
Proof. now destruct ci. Qed.

Lemma for_items_spec items cis :
  Forall2 (fun x y => Spec.as_item x = Some y) items cis ->
  forall acc st,
  exists st',
    Client.for_items items acc st
    = (Returned (acc ++ map PyStr (fst (Spec.answer_lines cis (world st))))%list, st')
    /\ world st' = snd (Spec.answer_lines cis (world st))
    /\ calls st' = (calls st ++ Spec.invocations cis)%list.
Proof.
  induction 1 as [|item ci items cis Hitem _ IH]; intros acc st.
  - exists st. simpl. unfold ret. now rewrite !app_nil_r.
  - destruct (loop_body_item item ci acc st Hitem) as (st1 & Hrun & Hw & Hc).
    destruct (IH (acc ++ map PyStr (fst (Spec.answer_lines [ci] (world st))))%list st1)
      as (st2 & Hrun2 & Hw2 & Hc2).
    exists st2. simpl Client.for_items. unfold bind. rewrite Hrun, Hrun2.
    rewrite (answer_lines_cons ci cis), (invocations_cons ci cis). cbn [fst snd].
    rewrite Hw2, Hc2, Hw, Hc, map_app, !app_assoc. repeat split.
Qed.

(** C4.  When the oracle's text parses as an object whose [content] is a
    sequence of content items, [process_query] returns the newline-join of
    one line per item, in the order of the sequence, a text item giving its
    text and a tool call its result line; the tools are called in that
    order. *)
Theorem answer_follows_content_order query st r st1 d items cis :
  Client.ask_oracle query st = (Returned r, st1) ->
  json_loads (strip r) = Some (PyDict d) ->
  dict_lookup "content" d = Some (PyList items) ->
  mapM Spec.as_item items = Some cis ->
  exists st2,
    Client.process_query query st
    = (Returned (Spec.FinalAnswer cis (world st1)), st2)
    /\ world st2 = snd (Spec.answer_lines cis (world st1))
    /\ calls st2 = (calls st1 ++ Spec.invocations cis)%list.
Proof.
  intros Hask Hj Hc Hitems. apply mapM_Some in Hitems.
  destruct (for_items_spec items cis Hitems [] st1) as (st2 & Hrun & Hw & Hcalls).
  exists st2. repeat split; [|exact Hw|exact Hcalls].
  unfold Client.process_query. rewrite (bind_returned _ _ _ _ _ Hask).
  unfold Client.interpret. rewrite Hj. unfold bind, lift, get. rewrite Hc. simpl iter.
  cbv iota. rewrite Hrun. simpl app. now rewrite join_strs.
Qed.

(** C7.  When the oracle call of the presentation pass raises, after
    [process_query] has returned its answer, [handle_query] raises that
    exception: it does not return the unformatted answer. *)
Theorem presentation_failure_propagates request st q text st1 e w2 :
  Host.query_of request = Returned q ->
  Host.process_query q st = (Returned text, st1) ->
  chat_completion (Host.prettify_prompt text) (PyStr text) (world st1) = (Raised e, w2) ->
  Host.handle_query request st
  = (Raised e, {| world := w2; calls := calls st1; stdout := stdout st1 |}).
Proof.
  intros Hq Hrun Horacle.
  unfold Host.handle_query. rewrite Hq, bind_lift_returned.
  rewrite (bind_returned _ _ _ _ _ Hrun).
  cbv beta zeta delta [bind Host.prettify_output openai_chat on_world].
  now rewrite Horacle.
Qed.

(** C2 (amended).  When [json.loads] raises [JSONDecodeError] on the
    oracle's text, stripped of the white space around it, [process_query]
    returns the prefix followed by the stripped text, and invokes no
    tool. *)
Theorem fallback_answer_is_stripped_text query st r st1 :
  Client.ask_oracle query st = (Returned r, st1) ->
  json_loads (strip r) = None ->
  Client.process_query query st
  = (Returned ("Model did not return valid JSON:" ++ nl ++ strip r), st1)
  /\ calls st1 = calls st.
Proof.
  intros Hask Hj. split.
  - unfold Client.process_query. rewrite (bind_returned _ _ _ _ _ Hask).
    now apply interpret_fallback.
  - now apply (client_ask_oracle_quiet _ _ _ _ Hask).
Qed.

(** C5.  When the oracle's text parses as a JSON object without the key
    [content], [process_query] returns the empty string. *)
Theorem no_content_key_gives_empty_answer query st r st1 d :
  Client.ask_oracle query st = (Returned r, st1) ->
  json_loads (strip r) = Some (PyDict d) ->
  dict_lookup "content" d = None ->
  Client.process_query query st = (Returned EmptyString, st1).
Proof.
  intros Hask Hj Hc.
  unfold Client.process_query. rewrite (bind_returned _ _ _ _ _ Hask).
  unfold Client.interpret. rewrite Hj. unfold bind, lift, get. now rewrite Hc.
Qed.

(** C10.  The interpretation step is written twice, and the two
    [process_query] agree: when the oracle gives the client and the host
    the same text, in the same state of the tool channel, both return the
    same answer, or raise the same exception, and leave the same state. *)
Theorem process_query_of_client_and_host_agree query q st_client st_host r st1 :
  Client.ask_oracle query st_client = (Returned r, st1) ->
  Host.ask_oracle q st_host = (Returned r, st1) ->
  Client.process_query query st_client = Host.process_query q st_host.
Proof.
  intros Hclient Hhost. unfold Client.process_query, Host.process_query.
  rewrite (bind_returned _ _ _ _ _ Hclient), (bind_returned _ _ _ _ _ Hhost).
  symmetry. apply interpret_same.
Qed.

End Negotiation.

(** ** The request of [get_phenomena] *)

Section Phenomena.
Import Engine.
Context {W : Type}.
Variables (base_url subscription_key : string).
Variable http_get : HttpRequest -> W -> result pyval * W.

Lemma params_lookups (args : PhenomenaArgs) :
  let p := get_phenomena_params args in
  p !! "timezone" = PString <$> timezone args
  /\ p !! "useBst" = (fun b : bool => PString (if b then "true" else "false")) <$> useBst args
  /\ p !! "depression" = PInteger <$> depression args
  /\ p !! "altitude" = PInteger <$> altitude args
  /\ p !! "latitude" = Some (PString (latitude args))
  /\ p !! "longitude" = Some (PString (longitude args))
  /\ p !! "startDate" = Some (PString (startDate args))
  /\ p !! "endDate" = Some (PString (endDate args)).
Proof.
  unfold get_phenomena_params.
  destruct (timezone args), (useBst args) as [[]|], (depression args), (altitude args);
    cbn -[insert lookup]; repeat split; simplify_map_eq; reflexivity.
Qed.

(** C6.  [get_phenomena] sends one request; in its query parameters each
    of [timezone], [useBst], [depression] and [altitude] is present exactly
    when the argument was supplied, [useBst] as the string [true] or
    [false], and [latitude], [longitude], [startDate] and [endDate] are
    always there. *)
Theorem get_phenomena_query_parameters (args : PhenomenaArgs) (st : state) :
  exists request p,
    sent (snd (get_phenomena base_url subscription_key http_get args st))
    = (sent st ++ [request])%list
    /\ params request = Some p
    /\ p !! "timezone" = PString <$> timezone args
    /\ p !! "useBst"
       = (fun b : bool => PString (if b then "true" else "false")) <$> useBst args
    /\ p !! "depression" = PInteger <$> depression args
    /\ p !! "altitude" = PInteger <$> altitude args
    /\ p !! "latitude" = Some (PString (latitude args))
    /\ p !! "longitude" = Some (PString (longitude args))
    /\ p !! "startDate" = Some (PString (startDate args))
    /\ p !! "endDate" = Some (PString (endDate args)).
Proof.
  unfold get_phenomena, celestial_request.
  match goal with
  | |- context [http_get ?req (world st)] =>
      exists req, (get_phenomena_params args);
      destruct (http_get req (world st)) as [[data|e] w]
  end; (split; [reflexivity|]); (split; [reflexivity|]); apply params_lookups.
Qed.

End Phenomena.

(** ** Decoding what the encoder wrote *)

Section RoundTrip.
Import Json.
Local Open Scope list_scope.

(** One member of an object, as [encode] writes it. *)
Local Abbreviation member level :=
  (fun '(k, x) => encode_string k ++ ":"%char :: " "%char :: encode (S level) x).


(** Decides the tests on characters that are known. *)
Ltac decide_tests :=
  repeat
    (match goal with
     | |- context [(code ?c =? ?n)%nat] =>
         let b := eval vm_compute in (code c =? n)%nat in
         match b with true => idtac | false => idtac end;
         change (code c =? n)%nat with b
     | |- context [(code ?c <? ?n)%nat] =>
         let b := eval vm_compute in (code c <? n)%nat in
         match b with true => idtac | false => idtac end;
         change (code c <? n)%nat with b
     | |- context [is_digit ?c] =>
         let b := eval vm_compute in (is_digit c) in
         match b with true => idtac | false => idtac end;
         change (is_digit c) with b
     | |- context [is_ws ?c] =>
         let b := eval vm_compute in (is_ws c) in
         match b with true => idtac | false => idtac end;
         change (is_ws c) with b
     end; cbv iota beta).


Lemma scanstring_escape c s :
  scanstring (escape_char c ++ s) = cons_char c (scanstring s).
Proof. destruct c as [[] [] [] [] [] [] [] []]; reflexivity. Qed.

Lemma scanstring_encoded cs rest :
  scanstring (flat_map escape_char cs ++ quote :: rest)
  = Some (string_of_list_ascii cs, rest).
Proof.
  induction cs as [|c cs IH]; [reflexivity|].
  simpl flat_map. rewrite <- app_assoc, scanstring_escape, IH. reflexivity.
Qed.

Lemma scan_once_string f s rest :
  scan_once (S f) (encode_string s ++ rest) = Some (PyStr s, rest).
Proof.
  unfold encode_string, chars_of. simpl app at 1.
  rewrite <- app_assoc. simpl app at 2.
  cbn [scan_once]. change (code quote =? 34)%nat with true. cbv iota.
  rewrite scanstring_encoded. now rewrite string_of_list_ascii_of_string.
Qed.

(** The digits of a decimal numeral. *)
Lemma digit_chars u :
  Forall (fun c => is_digit c = true) (chars_of (NilEmpty.string_of_uint u)).
Proof. induction u; simpl; constructor; auto. Qed.

Lemma take_digits_all ds rest :
  Forall (fun c => is_digit c = true) ds ->
  starts_with_digit rest = false ->
  take_digits (ds ++ rest) = (ds, rest).
Proof.
  intros Hds Hrest. induction Hds as [|c ds Hc _ IH]; cbn [app take_digits].
  - destruct rest as [|c r]; [reflexivity|]. cbn [starts_with_digit] in Hrest.
    cbn [take_digits]. now rewrite Hrest.
  - now rewrite Hc, IH.
Qed.

Lemma digits_value_acc u : forall acc,
  digits_value (Npos acc) (chars_of (NilEmpty.string_of_uint u))
  = Npos (Pos.of_uint_acc u acc).
Proof.
  induction u; intros acc; simpl; [reflexivity|..];
    match goal with
    | |- digits_value ?n _ = _ =>
        match goal with
        | |- context [Pos.of_uint_acc u ?a] =>
            replace n with (Npos a) by (cbn; lia)
        end
    end; apply IHu.
Qed.

Lemma digits_value_uint u :
  digits_value 0 (chars_of (NilEmpty.string_of_uint u)) = Pos.of_uint u.
Proof.
  induction u; simpl; [reflexivity|exact IHu|..];
    match goal with
    | |- digits_value ?n _ = Npos (Pos.of_uint_acc _ ?a) =>
        change n with (Npos a)
    end; apply digits_value_acc.
Qed.

Lemma nzhead_not_D0 u l : Decimal.nzhead u <> Decimal.D0 l.
Proof. induction u; simpl; congruence. Qed.

Lemma to_uint_not_D0 p l : Pos.to_uint p <> Decimal.D0 l.
Proof.
  intros Hp.
  assert (Hn : Decimal.unorm (Pos.to_uint p) = Pos.to_uint p).
  { rewrite <- (DecimalPos.Unsigned.to_of (Pos.to_uint p)).
    now rewrite DecimalPos.Unsigned.of_to. }
  rewrite Hp in Hn. unfold Decimal.unorm in Hn. simpl in Hn.
  destruct (Decimal.nzhead l) eqn:Hl; try discriminate.
  - injection Hn as <-. now apply (DecimalPos.Unsigned.to_uint_nonzero p).
  - now apply (nzhead_not_D0 l u).
Qed.

Lemma delimited_no_digit rest :
  delimited rest = true -> starts_with_digit rest = false /\ float_tail rest = false.
Proof.
  destruct rest as [|c r]; [now split|]. simpl.
  destruct c as [[] [] [] [] [] [] [] []]; try discriminate; now split.
Qed.

Lemma scan_number_uint (neg : bool) u rest :
  u <> Decimal.Nil -> (forall l, u <> Decimal.D0 l) ->
  delimited rest = true ->
  scan_number ((if neg then ["-"%char] else [])
                 ++ chars_of (NilEmpty.string_of_uint u) ++ rest)
  = Some (PyInt (if neg then - Z.of_N (Pos.of_uint u) else Z.of_N (Pos.of_uint u)),
          rest).
Proof.
  intros Hnil Hzero Hrest.
  apply delimited_no_digit in Hrest as [Hdigit Hfloat].
  rewrite <- (digits_value_uint u).
  destruct u as [|u|u|u|u|u|u|u|u|u|u]; [congruence|now destruct (Hzero u)|..];
    destruct neg;
    cbn [NilEmpty.string_of_uint chars_of list_ascii_of_string app];
    unfold scan_number; decide_tests;
    rewrite (take_digits_all (list_ascii_of_string (NilEmpty.string_of_uint u))
               rest (digit_chars u) Hdigit);
    cbv iota beta; rewrite Hfloat; reflexivity.
Qed.

Lemma scan_once_number f c s :
  is_digit c || (code c =? 45)%nat = true ->
  scan_once (S f) (c :: s) = scan_number (c :: s).
Proof.
  destruct c as [[] [] [] [] [] [] [] []]; intros Hc;
    try (vm_compute in Hc; discriminate Hc); reflexivity.
Qed.

Lemma scan_once_int f z rest :
  delimited rest = true ->
  scan_once (S f) (encode_int z ++ rest) = Some (PyInt z, rest).
Proof.
  intros Hrest. unfold encode_int, int_str. destruct z as [|p|p]; simpl Z.to_int.
  - simpl app. rewrite scan_once_number by reflexivity.
    apply delimited_no_digit in Hrest as [_ Hfloat].
    unfold scan_number. decide_tests. now rewrite Hfloat.
  - pose proof (DecimalPos.Unsigned.to_uint_nonnil p) as Hnil.
    pose proof (to_uint_not_D0 p) as Hzero.
    pose proof (scan_number_uint false (Pos.to_uint p) rest Hnil Hzero Hrest) as Hscan.
    rewrite DecimalPos.Unsigned.of_to in Hscan. simpl app in Hscan.
    change (Z.of_N (N.pos p)) with (Z.pos p) in Hscan.
    rewrite <- Hscan. unfold NilZero.string_of_int, NilZero.string_of_uint.
    destruct (Pos.to_uint p) as [|u|u|u|u|u|u|u|u|u|u];
      [congruence|now destruct (Hzero u)|..];
      now apply scan_once_number.
  - pose proof (DecimalPos.Unsigned.to_uint_nonnil p) as Hnil.
    pose proof (to_uint_not_D0 p) as Hzero.
    pose proof (scan_number_uint true (Pos.to_uint p) rest Hnil Hzero Hrest) as Hscan.
    rewrite DecimalPos.Unsigned.of_to in Hscan. simpl app in Hscan.
    change (- Z.of_N (N.pos p)) with (Z.neg p) in Hscan.
    rewrite <- Hscan. unfold NilZero.string_of_int, NilZero.string_of_uint.
    destruct (Pos.to_uint p) as [|u|u|u|u|u|u|u|u|u|u];
      [congruence|now destruct (Hzero u)|..];
      now apply scan_once_number.
Qed.

Lemma skip_ws_spaces n s : skip_ws (repeat " "%char n ++ s) = skip_ws s.
Proof. induction n as [|n IH]; [reflexivity|exact IH]. Qed.

Lemma skip_ws_newline_indent level s :
  skip_ws (newline_indent level ++ s) = skip_ws s.
Proof. unfold newline_indent. simpl. apply skip_ws_spaces. Qed.

Lemma newline_indent_length level : (1 <= length (newline_indent level))%nat.
Proof. unfold newline_indent. simpl. lia. Qed.

(** An encoded value starts with a character that is no white space and
    closes nothing. *)
Lemma encode_head level v :
  exists c t, encode level v = c :: t
              /\ is_ws c = false
              /\ (code c =? 93)%nat = false.
Proof.
  destruct v as [|[]|z|s|[|x l]|[|[k x] d]]; try (eexists _, _; repeat split; fail).
  unfold encode, encode_int, int_str.
  destruct z as [|p|p]; try (eexists _, _; repeat split; fail);
    simpl; unfold NilZero.string_of_uint;
    destruct (Pos.to_uint p); eexists _, _; repeat split.
Qed.

Lemma skip_ws_encode level v rest :
  skip_ws (encode level v ++ rest) = encode level v ++ rest.
Proof.
  destruct (encode_head level v) as (c & t & -> & Hws & _).
  simpl. now rewrite Hws.
Qed.

Lemma encode_length level v : (1 <= length (encode level v))%nat.
Proof.
  destruct (encode_head level v) as (c & t & -> & _). simpl. lia.
Qed.

(** [dict(pairs)] of pairs with distinct keys is the list of the pairs. *)
Lemma distinct_NoDup ks : Spec.distinct ks = true -> NoDup ks.
Proof.
  induction ks as [|k ks IH]; simpl; [constructor|].
  intros [Hk Hks]%andb_prop. constructor; [|auto].
  intros Hin. apply negb_true_iff in Hk.
  assert (existsb (String.eqb k) ks = true); [|congruence].
  apply existsb_exists. exists k. split; [now apply list_elem_of_In|apply String.eqb_refl].
Qed.

Lemma dict_set_fresh k v (acc : dict) :
  k ∉ map fst acc -> dict_set k v acc = acc ++ [(k, v)].
Proof.
  induction acc as [|[k' v'] acc IH]; simpl; [reflexivity|].
  intros Hk. apply not_elem_of_cons in Hk as [Hne Hk].
  destruct (String.eqb k k') eqn:Heq.
  - apply String.eqb_eq in Heq. contradiction.
  - now rewrite IH.
Qed.

Lemma dict_of_pairs_acc (pairs : list (string * pyval)) : forall acc : dict,
  NoDup (map fst pairs) ->
  (forall k, k ∈ map fst pairs -> k ∉ map fst acc) ->
  fold_left (fun d '(k, v) => dict_set k v d) pairs acc = acc ++ pairs.
Proof.
  induction pairs as [|[k v] pairs IH]; intros acc Hnd Hfresh; simpl.
  - now rewrite app_nil_r.
  - simpl in Hnd. apply NoDup_cons in Hnd as [Hk Hnd].
    rewrite dict_set_fresh by (apply Hfresh; simpl; left).
    rewrite IH; [now rewrite <- app_assoc|exact Hnd|].
    intros k' Hk'. rewrite map_app. simpl. intros Hin.
    apply elem_of_app in Hin as [Hin|Hin].
    + apply (Hfresh k'); [simpl; now right|exact Hin].
    + apply list_elem_of_singleton in Hin as ->. contradiction.
Qed.

Lemma dict_of_pairs_distinct (d : dict) :
  Spec.distinct (map fst d) = true -> dict_of_pairs d = d.
Proof.
  intros Hd. unfold dict_of_pairs.
  rewrite dict_of_pairs_acc; [reflexivity|now apply distinct_NoDup|].
  intros k _. simpl. apply not_elem_of_nil.
Qed.

Lemma sep_concat_head sep level x l :
  exists c t,
    sep_concat sep (map (encode level) (x :: l)) = c :: t
    /\ is_ws c = false /\ (code c =? 93)%nat = false.
Proof.
  destruct (encode_head level x) as (c & t & Hx & Hws & Hclose).
  destruct l as [|y l]; simpl; rewrite Hx; eexists _, _; repeat split; eauto.
Qed.

Lemma skip_ws_sep_concat sep level x l rest :
  skip_ws (sep_concat sep (map (encode level) (x :: l)) ++ rest)
  = sep_concat sep (map (encode level) (x :: l)) ++ rest.
Proof.
  destruct (sep_concat_head sep level x l) as (c & t & -> & Hws & _).
  simpl. now rewrite Hws.
Qed.

Lemma parse_elems_encoded level l :
  l <> [] ->
  Forall Spec.round_trips l ->
  forallb Spec.wf l = true ->
  forall fuel rest,
    (length (sep_concat (item_separator (S level)) (map (encode (S level)) l)) + 1
     <= fuel)%nat ->
    parse_elems fuel
      (sep_concat (item_separator (S level)) (map (encode (S level)) l)
         ++ newline_indent level ++ "]"%char :: rest)
    = Some (l, rest).
Proof.
  induction l as [|x l IH]; [congruence|].
  intros _ Hall Hwf fuel rest Hfuel.
  apply List.Forall_cons_iff in Hall as [Hx Hall].
  simpl in Hwf. apply andb_prop in Hwf as [Hwfx Hwf].
  destruct fuel as [|f]; [lia|].
  destruct l as [|y l].
  - simpl sep_concat in *. cbn [parse_elems].
    rewrite (Hx Hwfx (S level) f) by (reflexivity || lia).
    rewrite skip_ws_newline_indent. reflexivity.
  - change (sep_concat (item_separator (S level)) (map (encode (S level)) (x :: y :: l)))
      with (encode (S level) x ++ item_separator (S level)
              ++ sep_concat (item_separator (S level)) (map (encode (S level)) (y :: l)))
      in *.
    rewrite !length_app in Hfuel.
    pose proof (encode_length (S level) x) as Hlen.
    rewrite <- !app_assoc. cbn [parse_elems].
    rewrite (Hx Hwfx (S level) f) by (reflexivity || lia).
    unfold item_separator at 1. cbn [app skip_ws]. decide_tests.
    rewrite skip_ws_newline_indent, skip_ws_sep_concat.
    rewrite (IH ltac:(discriminate) Hall Hwf f rest) by lia.
    reflexivity.
Qed.

Lemma members_head sep level (kv : string * pyval) d :
  exists t, sep_concat sep (map (member level) (kv :: d)) = quote :: t.
Proof. destruct kv as [k x], d as [|kv' d]; simpl; eexists; reflexivity. Qed.

Lemma parse_members_encoded level (d : dict) :
  d <> [] ->
  Forall (fun kv => Spec.round_trips (snd kv)) d ->
  forallb (fun '(_, x) => Spec.wf x) d = true ->
  forall fuel rest t,
    sep_concat (item_separator (S level)) (map (member level) d) = quote :: t ->
    (length t + 1 <= fuel)%nat ->
    parse_members fuel (t ++ newline_indent level ++ "}"%char :: rest)
    = Some (d, rest).
Proof.
  induction d as [|[k x] d IH]; [congruence|].
  intros _ Hall Hwf fuel rest t Ht Hfuel.
  apply List.Forall_cons_iff in Hall as [Hx Hall]. simpl in Hx.
  simpl in Hwf. apply andb_prop in Hwf as [Hwfx Hwf].
  destruct fuel as [|f]; [lia|].
  pose proof (encode_length (S level) x) as Hlen.
  destruct d as [|kv d].
  - simpl in Ht. injection Ht as <-.
    rewrite !length_app in Hfuel. simpl in Hfuel.
    rewrite <- !app_assoc. cbn [app parse_members].
    rewrite scanstring_encoded.
    unfold chars_of. rewrite string_of_list_ascii_of_string.
    do 2 (cbn [skip_ws]; decide_tests). rewrite skip_ws_encode.
    rewrite (Hx Hwfx (S level) f) by (reflexivity || lia).
    rewrite skip_ws_newline_indent. reflexivity.
  - destruct (members_head (item_separator (S level)) level kv d) as [t' Ht'].
    change (sep_concat (item_separator (S level)) (map (member level) ((k, x) :: kv :: d)))
      with (member level (k, x) ++ item_separator (S level)
              ++ sep_concat (item_separator (S level)) (map (member level) (kv :: d)))
      in Ht.
    rewrite Ht' in Ht. simpl in Ht. injection Ht as <-.
    rewrite !length_app in Hfuel. simpl in Hfuel. rewrite !length_app in Hfuel.
    simpl in Hfuel.
    rewrite <- !app_assoc. cbn [app parse_members].
    rewrite scanstring_encoded.
    unfold chars_of. rewrite string_of_list_ascii_of_string.
    do 2 (cbn [skip_ws]; decide_tests). rewrite skip_ws_encode.
    rewrite (Hx Hwfx (S level) f) by (reflexivity || lia).
    do 3 (cbn [skip_ws]; decide_tests).
    rewrite <- app_assoc, skip_ws_spaces.
    cbn [app skip_ws]. decide_tests.
    rewrite (IH ltac:(discriminate) Hall Hwf f rest t' Ht') by lia.
    reflexivity.
Qed.

Lemma encode_round_trips v : Spec.round_trips v.
Proof.
  induction v as [|b|z|s|l IH|d IH] using pyval_induction;
    intros Hwf level fuel rest Hfuel Hrest.
  - destruct fuel as [|f]; [simpl in Hfuel; lia|reflexivity].
  - destruct fuel as [|f]; [destruct b; simpl in Hfuel; lia|destruct b; reflexivity].
  - pose proof (encode_length level (PyInt z)).
    destruct fuel as [|f]; [lia|]. now apply scan_once_int.
  - pose proof (encode_length level (PyStr s)).
    destruct fuel as [|f]; [lia|]. apply scan_once_string.
  - pose proof (encode_length level (PyList l)).
    destruct fuel as [|f]; [lia|].
    destruct l as [|x l]; [reflexivity|].
    change (encode level (PyList (x :: l)))
      with ("["%char :: newline_indent (S level)
              ++ sep_concat (item_separator (S level)) (map (encode (S level)) (x :: l))
              ++ newline_indent level ++ ["]"%char]) in *.
    remember (sep_concat (item_separator (S level)) (map (encode (S level)) (x :: l)))
      as body eqn:Hbody.
    cbn [length] in Hfuel. rewrite !length_app in Hfuel. subst body.
    pose proof (newline_indent_length (S level)) as Hnl.
    cbn [app scan_once]. decide_tests.
    rewrite <- !app_assoc. cbn [app].
    rewrite skip_ws_newline_indent, skip_ws_sep_concat.
    destruct (sep_concat_head (item_separator (S level)) (S level) x l)
      as (c & t & Hhead & _ & Hclose).
    match goal with
    | |- context [match ?body ++ ?r with _ => _ end] =>
        assert (Hb : body ++ r = c :: (t ++ r)) by (now rewrite Hhead);
        rewrite Hb; cbv iota; rewrite Hclose, <- Hb
    end.
    simpl in Hwf.
    rewrite (parse_elems_encoded level (x :: l) ltac:(discriminate) IH Hwf) by lia.
    reflexivity.
  - pose proof (encode_length level (PyDict d)).
    destruct fuel as [|f]; [lia|].
    destruct d as [|[k x] d]; [reflexivity|].
    change (encode level (PyDict ((k, x) :: d)))
      with ("{"%char :: newline_indent (S level)
              ++ sep_concat (item_separator (S level)) (map (member level) ((k, x) :: d))
              ++ newline_indent level ++ ["}"%char]) in *.
    destruct (members_head (item_separator (S level)) level (k, x) d) as [t Ht].
    rewrite Ht in *.
    cbn [length] in Hfuel. rewrite !length_app in Hfuel. cbn [length] in Hfuel.
    pose proof (newline_indent_length (S level)) as Hnl.
    cbn [app scan_once]. decide_tests.
    rewrite <- !app_assoc. cbn [app].
    rewrite skip_ws_newline_indent.
    cbn [app skip_ws]. decide_tests.
    rewrite <- !app_assoc. cbn [app].
    cbn [Spec.wf] in Hwf. apply andb_prop in Hwf as [Hkeys Hwf].
    rewrite (parse_members_encoded level ((k, x) :: d) ltac:(discriminate) IH Hwf
               f rest t Ht) by lia.
    now rewrite dict_of_pairs_distinct.
Qed.

(** [json.loads] gives back every well-formed value [json.dumps] wrote. *)
Lemma loads_dumps v : Spec.wf v = true -> Json.loads (Json.dumps v) = Some v.
Proof.
  intros Hwf. unfold Json.loads, Json.dumps, chars_of.
  rewrite list_ascii_of_string_of_list_ascii.
  rewrite <- (app_nil_r (encode 0%nat v)) at 2.
  rewrite skip_ws_encode.
  rewrite (encode_round_trips v Hwf 0%nat) by (reflexivity || lia).
  reflexivity.
Qed.

(** ** The fuel of the decoder *)

Lemma skip_ws_length s : (length (skip_ws s) <= length s)%nat.
Proof.
  induction s as [|c s IH]; simpl; [lia|]. destruct (is_ws c); simpl; lia.
Qed.

Lemma cons_char_some c o x r :
  cons_char c o = Some (x, r) -> exists x', o = Some (x', r).
Proof. destruct o as [[x' r']|]; simpl; [|discriminate]. intros [= _ <-]. eauto. Qed.

Lemma scanstring_shorter n : forall s x r,
  (length s <= n)%nat -> scanstring s = Some (x, r) -> (length r < length s)%nat.
Proof.
  induction n as [|n IH]; intros s x r Hn Hs; destruct s as [|c s];
    try discriminate; simpl in Hn; [lia|].
  cbn [scanstring] in Hs.
  destruct (code c =? 34)%nat; [injection Hs as _ <-; simpl; lia|].
  destruct (code c =? 92)%nat.
  - destruct s as [|e s]; [discriminate|].
    destruct (code e =? 117)%nat.
    + destruct s as [|h1 [|h2 [|h3 [|h4 s]]]]; try discriminate.
      destruct (hex_value h1), (hex_value h2), (hex_value h3), (hex_value h4);
        try discriminate.
      destruct ((_ =? 0) && (_ =? 0))%nat; [|discriminate].
      apply cons_char_some in Hs as [x' Hs].
      apply IH in Hs; simpl in *; lia.
    + destruct (unescape e); [|discriminate].
      apply cons_char_some in Hs as [x' Hs].
      apply IH in Hs; simpl in *; lia.
  - destruct (code c <? 32)%nat; [discriminate|].
    apply cons_char_some in Hs as [x' Hs].
    apply IH in Hs; simpl in *; lia.
Qed.

Lemma take_digits_length s : (length (snd (take_digits s)) <= length s)%nat.
Proof.
  induction s as [|c s IH]; simpl; [lia|].
  destruct (is_digit c); [|simpl; lia].
  destruct (take_digits s); simpl in *; lia.
Qed.

Lemma scan_number_shorter s v r :
  scan_number s = Some (v, r) -> (length r < length s)%nat.
Proof.
  unfold scan_number. intros Hs.
  assert (Hdigits : forall c r0 neg,
             match (c :: r0) with
             | [] => None
             | c :: r =>
                 if is_digit c then
                   let '(ds, rest) :=
                     if (code c =? 48)%nat then ([], r) else take_digits r in
                   if float_tail rest then None
                   else
                     let n := Z.of_N (digits_value 0 (c :: ds)) in
                     Some (PyInt (if neg : bool then - n else n), rest)
                 else None
             end = Some (v, r) -> (length r <= length r0)%nat).
  { intros c r0 neg Hd. destruct (is_digit c); [|discriminate].
    destruct (code c =? 48)%nat.
    - destruct (float_tail r0); [discriminate|]. injection Hd as _ <-. lia.
    - pose proof (take_digits_length r0) as Hlen.
      destruct (take_digits r0) as [ds rest]. simpl in Hlen.
      destruct (float_tail rest); [discriminate|]. injection Hd as _ <-. lia. }
  destruct s as [|c s]; [discriminate|].
  destruct (code c =? 45)%nat.
  - destruct s as [|c' s]; [discriminate|].
    pose proof (Hdigits c' s true Hs). simpl. lia.
  - pose proof (Hdigits c s false Hs). simpl. lia.
Qed.

Lemma strip_prefix_length p : forall s r,
  strip_prefix p s = Some r -> length s = (length p + length r)%nat.
Proof.
  induction p as [|a p IH]; intros s r; simpl; [now intros [= ->]|].
  destruct s as [|b s]; [discriminate|].
  destruct (Ascii.eqb a b); [|discriminate]. intros Hs%IH. simpl. lia.
Qed.

Lemma scan_literal_shorter s v r :
  scan_literal s = Some (v, r) -> (length r < length s)%nat.
Proof.
  unfold scan_literal.
  destruct (strip_prefix (chars_of "null") s) eqn:Hnull;
    [intros [= _ <-]; apply strip_prefix_length in Hnull; simpl in Hnull; lia|].
  destruct (strip_prefix (chars_of "true") s) eqn:Htrue;
    [intros [= _ <-]; apply strip_prefix_length in Htrue; simpl in Htrue; lia|].
  destruct (strip_prefix (chars_of "false") s) eqn:Hfalse;
    [intros [= _ <-]; apply strip_prefix_length in Hfalse; simpl in Hfalse; lia|].
  apply scan_number_shorter.
Qed.

Lemma scan_once_fuel_step f :
  fuel_enough parse_elems f -> fuel_enough parse_members f ->
  fuel_enough scan_once (S f).
Proof.
  intros IHe IHm s x r Hrun. cbn [scan_once] in Hrun.
  destruct s as [|c s]; [discriminate|].
  destruct (code c =? 34)%nat eqn:Hquote.
  { destruct (scanstring s) as [[k r']|] eqn:Hs; [|discriminate].
    injection Hrun as <- <-.
    pose proof (scanstring_shorter _ _ _ _ (le_n _) Hs).
    split; [simpl; lia|]. intros [|f'] Hf'; [simpl in Hf'; lia|].
    cbn [scan_once]. now rewrite Hquote, Hs. }
  destruct (code c =? 123)%nat eqn:Hbrace.
  { pose proof (skip_ws_length s) as Hws.
    destruct (skip_ws s) as [|c' r'] eqn:Hskip; [discriminate|].
    destruct (code c' =? 125)%nat eqn:Hclose.
    - injection Hrun as <- <-. split; [simpl in *; lia|].
      intros [|f'] Hf'; [simpl in *; lia|].
      cbn [scan_once]. now rewrite Hquote, Hbrace, Hskip, Hclose.
    - destruct (code c' =? 34)%nat eqn:Hkey; [|discriminate].
      destruct (parse_members f r') as [[pairs r'']|] eqn:Hm; [|discriminate].
      injection Hrun as <- <-. destruct (IHm _ _ _ Hm) as [Hlen Hfuel].
      split; [simpl in *; lia|]. intros [|f'] Hf'; [simpl in *; lia|].
      cbn [scan_once]. rewrite Hquote, Hbrace, Hskip, Hclose, Hkey.
      now rewrite Hfuel by (simpl in *; lia). }
  destruct (code c =? 91)%nat eqn:Hbracket.
  { pose proof (skip_ws_length s) as Hws.
    destruct (skip_ws s) as [|c' r'] eqn:Hskip; [discriminate|].
    destruct (code c' =? 93)%nat eqn:Hclose.
    - injection Hrun as <- <-. split; [simpl in *; lia|].
      intros [|f'] Hf'; [simpl in *; lia|].
      cbn [scan_once]. now rewrite Hquote, Hbracket, Hbrace, Hskip, Hclose.
    - destruct (parse_elems f (c' :: r')) as [[vs r'']|] eqn:He; [|discriminate].
      injection Hrun as <- <-. destruct (IHe _ _ _ He) as [Hlen Hfuel].
      split; [simpl in *; lia|]. intros [|f'] Hf'; [simpl in *; lia|].
      cbn [scan_once]. rewrite Hquote, Hbracket, Hbrace, Hskip, Hclose.
      now rewrite Hfuel by (simpl in *; lia). }
  pose proof (scan_literal_shorter _ _ _ Hrun).
  split; [lia|]. intros [|f'] Hf'; [lia|].
  cbn [scan_once]. now rewrite Hquote, Hbracket, Hbrace.
Qed.

Lemma parse_elems_fuel_step f :
  fuel_enough scan_once f -> fuel_enough parse_elems f ->
  fuel_enough parse_elems (S f).
Proof.
  intros IHv IHe s x r Hrun. cbn [parse_elems] in Hrun.
  destruct (scan_once f s) as [[v r1]|] eqn:Hv; [|discriminate].
  destruct (IHv _ _ _ Hv) as [Hlen1 Hfuel1].
  pose proof (skip_ws_length r1) as Hws1.
  destruct (skip_ws r1) as [|c r2] eqn:Hskip1; [discriminate|].
  destruct (code c =? 93)%nat eqn:Hclose.
  - injection Hrun as <- <-. split; [simpl in *; lia|].
    intros [|f'] Hf'; [simpl in *; lia|].
    cbn [parse_elems]. rewrite Hfuel1 by (simpl in *; lia).
    now rewrite Hskip1, Hclose.
  - destruct (code c =? 44)%nat eqn:Hcomma; [|discriminate].
    pose proof (skip_ws_length r2) as Hws2.
    destruct (parse_elems f (skip_ws r2)) as [[vs r3]|] eqn:He; [|discriminate].
    injection Hrun as <- <-. destruct (IHe _ _ _ He) as [Hlen2 Hfuel2].
    split; [simpl in *; lia|]. intros [|f'] Hf'; [simpl in *; lia|].
    cbn [parse_elems]. rewrite Hfuel1 by (simpl in *; lia).
    rewrite Hskip1, Hclose, Hcomma. now rewrite Hfuel2 by (simpl in *; lia).
Qed.

Lemma parse_members_fuel_step f :
  fuel_enough scan_once f -> fuel_enough parse_members f ->
  fuel_enough parse_members (S f).
Proof.
  intros IHv IHm s x r Hrun. cbn [parse_members] in Hrun.
  destruct (scanstring s) as [[k r0]|] eqn:Hk; [|discriminate].
  pose proof (scanstring_shorter _ _ _ _ (le_n _) Hk) as Hlen0.
  pose proof (skip_ws_length r0) as Hws0.
  destruct (skip_ws r0) as [|c r1] eqn:Hskip0; [discriminate|].
  destruct (code c =? 58)%nat eqn:Hcolon; [|discriminate].
  pose proof (skip_ws_length r1) as Hws1.
  destruct (scan_once f (skip_ws r1)) as [[v r2]|] eqn:Hv; [|discriminate].
  destruct (IHv _ _ _ Hv) as [Hlen1 Hfuel1].
  pose proof (skip_ws_length r2) as Hws2.
  destruct (skip_ws r2) as [|c' r3] eqn:Hskip2; [discriminate|].
  destruct (code c' =? 125)%nat eqn:Hclose.
  - injection Hrun as <- <-. split; [simpl in *; lia|].
    intros [|f'] Hf'; [simpl in *; lia|].
    cbn [parse_members]. rewrite Hk, Hskip0, Hcolon.
    rewrite Hfuel1 by (simpl in *; lia). now rewrite Hskip2, Hclose.
  - destruct (code c' =? 44)%nat eqn:Hcomma; [|discriminate].
    pose proof (skip_ws_length r3) as Hws3.
    destruct (skip_ws r3) as [|c'' r4] eqn:Hskip3; [discriminate|].
    destruct (code c'' =? 34)%nat eqn:Hquote; [|discriminate].
    destruct (parse_members f r4) as [[pairs r5]|] eqn:Hm; [|discriminate].
    injection Hrun as <- <-. destruct (IHm _ _ _ Hm) as [Hlen2 Hfuel2].
    split; [simpl in *; lia|]. intros [|f'] Hf'; [simpl in *; lia|].
    cbn [parse_members]. rewrite Hk, Hskip0, Hcolon.
    rewrite Hfuel1 by (simpl in *; lia).
    rewrite Hskip2, Hclose, Hcomma, Hskip3, Hquote.
    now rewrite Hfuel2 by (simpl in *; lia).
Qed.

Lemma scan_once_fuel f :
  fuel_enough scan_once f /\ fuel_enough parse_elems f /\ fuel_enough parse_members f.
Proof.
  induction f as [|f (IHv & IHe & IHm)].
  - repeat split; discriminate.
  - auto using scan_once_fuel_step, parse_elems_fuel_step, parse_members_fuel_step.
Qed.

(** Whenever some amount of fuel decodes a text, [json.loads] decodes it:
    its [None] is a text that no fuel decodes. *)
Lemma loads_any_fuel s fuel v r :
  scan_once fuel (skip_ws (chars_of s)) = Some (v, r) ->
  skip_ws r = [] ->
  Json.loads s = Some v.
Proof.
  intros Hrun Hrest. unfold Json.loads.
  destruct (scan_once_fuel fuel) as (Hv & _ & _).
  destruct (Hv _ _ _ Hrun) as [_ Hfuel].
  pose proof (skip_ws_length (chars_of s)).
  rewrite Hfuel by lia. now rewrite Hrest.
Qed.

Lemma as_tool_entry tool : Spec.as_tool (tool_entry tool) = Some tool.
Proof. now destruct tool. Qed.

Lemma parse_catalogue_entries tools :
  Spec.parse_catalogue (PyList (map tool_entry tools)) = Some tools.
Proof.
  unfold Spec.parse_catalogue. apply mapM_Some.
  induction tools as [|tool tools IH]; simpl; constructor; auto using as_tool_entry.
Qed.

Lemma wf_entries tools :
  forallb (fun tool => Spec.wf (inputSchema tool)) tools = true ->
  Spec.wf (PyList (map tool_entry tools)) = true.
Proof.
  simpl. induction tools as [|tool tools IH]; simpl; [reflexivity|].
  intros [Hschema Htools]%andb_prop. now rewrite Hschema, IH.
Qed.

(** C8.  The catalogue as [process_query] serialises it into the prompt,
    an array of objects with the keys [name], [description] and
    [input_schema], decodes back to the same tools, in the same order. *)
Theorem catalogue_round_trip (tools : list Tool) :
  forallb (fun tool => Spec.wf (inputSchema tool)) tools = true ->
  match Json.loads (Json.dumps (PyList (map tool_entry tools))) with
  | Some parsed => Spec.parse_catalogue parsed
  | None => None
  end = Some tools.
Proof.
  intros Hwf. rewrite (loads_dumps _ (wf_entries tools Hwf)).
  apply parse_catalogue_entries.
Qed.

End RoundTrip.

(** ** Runs on the scripted world *)

Import Double.

(** C1 (defect).  On the oracle's text [[]], which is valid JSON but no
    object, the interpretation step of both [process_query] raises
    [AttributeError] instead of returning an answer. *)
Theorem interpret_json_array_raises :
  Json.loads "[]" = Some (PyList [])
  /\ Client.interpret "[]" (start [])
     = (Raised (AttributeError "'list' object has no attribute 'get'"), start [])
  /\ Host.interpret "[]" (start [])
     = (Raised (AttributeError "'list' object has no attribute 'get'"), start []).
Proof. repeat split; vm_compute; reflexivity. Qed.

(** The oracle answers [" x "]: the fallback carries ["x"]. *)
Lemma fallback_answer_is_stripped_text_witness :
  Client.process_query "q" (start [Returned " x "])
  = (Returned ("Model did not return valid JSON:" ++ nl ++ "x"), start [])
  /\ calls (start []) = calls (start [Returned " x "]).
Proof.
  apply (fallback_answer_is_stripped_text "q" (start [Returned " x "]) " x " (start []));
    reflexivity.
Defined.

(** The claim C2 as the specification words it fails on a text with white
    space around it: the oracle's [" x"] is not valid JSON, and the answer
    is not the prefix followed by [" x"]. *)
Lemma fallback_answer_not_verbatim :
  Client.ask_oracle "q" (start [Returned " x"]) = (Returned " x", start [])
  /\ Json.loads " x" = None
  /\ fst (Client.process_query "q" (start [Returned " x"]))
     <> Returned ("Model did not return valid JSON:" ++ nl ++ " x").
Proof. repeat split; try (vm_compute; reflexivity). vm_compute. discriminate. Qed.

(** The oracle answers an object that has only the key [answer], with
    white space around it. *)
Lemma no_content_key_witness :
  Client.process_query "q" (start [Returned (" " ++ js "{'answer': 42}" ++ nl)])
  = (Returned EmptyString, start []).
Proof.
  apply (no_content_key_gives_empty_answer "q" _ (" " ++ js "{'answer': 42}" ++ nl)
           (start []) [("answer", PyInt 42)]); reflexivity.
Defined.

(** The example of section 8, item 5, with the tool result [R]. *)
Lemma answer_order_witness :
  let r := js "{'content':[{'type':'text','text':'A'},{'type':'tool_use','name':'list_celestial_bodies','input':{}}]}" in
  exists st2,
    Client.process_query "q" (start [Returned r])
    = (Returned ("A" ++ nl ++ "[Tool 'list_celestial_bodies' executed with result: R]"),
       st2)
    /\ world st2 = []
    /\ calls st2 = [(PyStr "list_celestial_bodies", PyDict [])].
Proof.
  intros r.
  exact (answer_follows_content_order "q" (start [Returned r]) r (start [])
           [("content", PyList [say "A"; use_with "list_celestial_bodies" (PyDict [])])]
           [say "A"; use_with "list_celestial_bodies" (PyDict [])]
           [Spec.Text "A"; Spec.ToolUse "list_celestial_bodies" (PyDict [])]
           eq_refl eq_refl eq_refl eq_refl).
Defined.

(** The oracle has one reply, for the negotiation step, and fails on the
    presentation pass. *)
Lemma presentation_failure_witness :
  Host.handle_query (get_request "hi") (start [Returned "not json"])
  = (Raised (OtherError "Connection error."), start []).
Proof.
  apply (presentation_failure_propagates (get_request "hi") (start [Returned "not json"])
           (PyStr "hi") ("Model did not return valid JSON:" ++ nl ++ "not json")
           (start []) (OtherError "Connection error.") []); reflexivity.
Defined.

(** The catalogue of the scripted channel. *)
Lemma catalogue_round_trip_witness :
  match Json.loads (Json.dumps (PyList (map tool_entry catalogue))) with
  | Some parsed => Spec.parse_catalogue parsed
  | None => None
  end = Some catalogue.
Proof. exact (catalogue_round_trip catalogue eq_refl). Defined.

(* ================================================================== *)
(** * Further properties of the three files *)
(* ================================================================== *)

(** ** The interpretation step on every decoded value *)

Section Shapes.
Context {W : Type} `{Env W}.

Lemma item_type_tool_use d :
  eq_str (Shape.item_type d) "tool_use" = true ->
  dict_lookup "type" d = Some (PyStr "tool_use").
Proof.
  unfold Shape.item_type. destruct (dict_lookup "type" d) as [[| | |ty| |]|];
    simpl; try discriminate. now intros ->%String.eqb_eq.
Qed.

(** One object: one chunk, a string unless it is a text that is none; a
    call and its announcement exactly when the object is a [tool_use]. *)
Lemma loop_body_chunk d st :
  exists c st',
    Client.loop_body (PyDict d) [] st = (Returned [c], st')
    /\ Shape.is_str c = Shape.item_ok (PyDict d)
    /\ calls st' = (calls st ++ Shape.requested_calls [PyDict d])%list
    /\ stdout st' = (stdout st ++ Shape.announcements [PyDict d])%list.
Proof.
  unfold Shape.requested_calls, Shape.announcements.
  cbn [List.filter Shape.is_tool_use Shape.item_ok].
  destruct (eq_str (Shape.item_type d) "text") eqn:Htext.
  - exists (default (PyStr EmptyString) (dict_lookup "text" d)), st.
    unfold Client.loop_body, bind, lift, ret.
    change (get (PyDict d) "type" PyNone) with (Returned (Shape.item_type d)).
    cbv beta iota. rewrite Htext. simpl. now rewrite !app_nil_r.
  - destruct (eq_str (Shape.item_type d) "tool_use") eqn:Htool; simpl.
    + eexists _, _. rewrite (loop_body_tool_use d [] st (item_type_tool_use d Htool)).
      repeat split.
    + exists (PyStr ("Unrecognized item: " ++ str (PyDict d))), st.
      unfold Client.loop_body, bind, lift, ret.
      change (get (PyDict d) "type" PyNone) with (Returned (Shape.item_type d)).
      cbv beta iota. rewrite Htext. cbv beta iota. rewrite Htool.
      simpl. now rewrite !app_nil_r.
Qed.

Lemma requested_calls_cons item items :
  Shape.requested_calls (item :: items)
  = (Shape.requested_calls [item] ++ Shape.requested_calls items)%list.
Proof.
  unfold Shape.requested_calls. simpl. now destruct (Shape.is_tool_use item).
Qed.

Lemma announcements_cons item items :
  Shape.announcements (item :: items)
  = (Shape.announcements [item] ++ Shape.announcements items)%list.
Proof.
  unfold Shape.announcements. simpl. now destruct (Shape.is_tool_use item).
Qed.

Lemma for_items_trace items : forall st,
  forallb Spec.is_object items = true ->
  exists cs st',
    Client.for_items items [] st = (Returned cs, st')
    /\ length cs = length items
    /\ forallb Shape.is_str cs = forallb Shape.item_ok items
    /\ calls st' = (calls st ++ Shape.requested_calls items)%list
    /\ stdout st' = (stdout st ++ Shape.announcements items)%list.
Proof.
  induction items as [|item items IH]; intros st Hobj.
  - exists [], st. simpl. unfold ret. now rewrite !app_nil_r.
  - simpl in Hobj. apply andb_prop in Hobj as [Hitem Hobj].
    destruct item as [| | | | |d]; try discriminate.
    destruct (loop_body_chunk d st) as (c & st1 & Hrun & Hstr & Hcalls & Hout).
    destruct (IH st1 Hobj) as (cs & st2 & Hrun2 & Hlen & Hstrs & Hcalls2 & Hout2).
    exists (c :: cs), st2.
    simpl Client.for_items. unfold bind. rewrite Hrun, for_items_acc, Hrun2.
    rewrite (requested_calls_cons (PyDict d)), (announcements_cons (PyDict d)).
    rewrite Hcalls2, Hout2, Hcalls, Hout, !app_assoc.
    cbn [app length forallb]. now rewrite Hlen, Hstr, Hstrs.
Qed.

(** The first item that is no object stops the loop. *)
Lemma for_items_non_object pre v post st :
  forallb Spec.is_object pre = true ->
  Spec.is_object v = false ->
  exists st1,
    Client.for_items (pre ++ v :: post) [] st = (Raised (no_attribute v "get"), st1)
    /\ calls st1 = (calls st ++ Shape.requested_calls pre)%list.
Proof.
  intros Hpre Hv.
  destruct (for_items_trace pre st Hpre) as (cs & st1 & Hrun & _ & _ & Hcalls & _).
  exists st1. split; [|exact Hcalls].
  rewrite for_items_app, Hrun. simpl Client.for_items.
  unfold bind, Client.loop_body, lift.
  destruct v; try reflexivity. discriminate.
Qed.

Lemma forallb_split {A} (f : A -> bool) l :
  forallb f l = false ->
  exists pre x post, l = (pre ++ x :: post)%list /\ forallb f pre = true /\ f x = false.
Proof.
  induction l as [|a l IH]; [discriminate|]. simpl.
  destruct (f a) eqn:Ha.
  - intros (pre & x & post & -> & Hpre & Hx)%IH.
    exists (a :: pre), x, post. simpl. now rewrite Ha.
  - intros _. now exists [], a, l.
Qed.

Lemma join_strings_outcome cs : forall i,
  if forallb Shape.is_str cs
  then exists ls, join_strings i cs = Returned ls
  else exists e, join_strings i cs = Raised e.
Proof.
  induction cs as [|c cs IH]; intros i; simpl; [eauto|].
  destruct c; simpl; eauto.
  specialize (IH (S i)). destruct (forallb Shape.is_str cs).
  - destruct IH as [ls ->]. eauto.
  - destruct IH as [e ->]. eauto.
Qed.

Lemma item_ok_object item : Shape.item_ok item = true -> Spec.is_object item = true.
Proof. now destruct item. Qed.

Lemma forallb_impl {A} (f g : A -> bool) l :
  (forall x, f x = true -> g x = true) -> forallb f l = true -> forallb g l = true.
Proof.
  intros Hfg. induction l as [|a l IH]; simpl; [reflexivity|].
  intros [Ha Hl]%andb_prop. now rewrite (Hfg a Ha), IH.
Qed.

(** The loop and the join on a list of items: an answer exactly when every
    item is [item_ok]. *)
Lemma items_outcome items st :
  if forallb Shape.item_ok items
  then exists s st',
      bind (Client.for_items items []) (fun chunks => lift (join nl chunks)) st
      = (Returned s, st')
  else exists e st',
      bind (Client.for_items items []) (fun chunks => lift (join nl chunks)) st
      = (Raised e, st').
Proof.
  destruct (forallb Spec.is_object items) eqn:Hobj.
  - destruct (for_items_trace items st Hobj) as (cs & st' & Hrun & _ & Hstr & _).
    unfold bind, lift, join. rewrite Hrun, <- Hstr.
    pose proof (join_strings_outcome cs 0%nat) as Hjoin.
    destruct (forallb Shape.is_str cs).
    + destruct Hjoin as [ls ->]. eauto.
    + destruct Hjoin as [e ->]. eauto.
  - destruct (forallb Shape.item_ok items) eqn:Hok.
    + apply (forallb_impl _ _ _ item_ok_object) in Hok. congruence.
    + apply forallb_split in Hobj as (pre & v & post & -> & Hpre & Hv).
      destruct (for_items_non_object pre v post st Hpre Hv) as (st1 & Hrun & _).
      unfold bind. rewrite Hrun. eauto.
Qed.

(** The step on a decoded object, by what iterating its content gives. *)
Lemma interpret_object content st d :
  json_loads (strip content) = Some (PyDict d) ->
  Client.interpret content st
  = match iter (default (PyList []) (dict_lookup "content" d)) with
    | Returned items =>
        bind (Client.for_items items []) (fun chunks => lift (join nl chunks)) st
    | Raised e => (Raised e, st)
    end.
Proof.
  intros Hj. unfold Client.interpret. rewrite Hj.
  change (get (PyDict d) "content" (PyList []))
    with (Returned (default (PyList []) (dict_lookup "content" d))).
  unfold bind at 1 2. unfold lift at 1 2.
  now destruct (iter (default (PyList []) (dict_lookup "content" d))).
Qed.

(** X1.  The interpretation step returns an answer exactly when the decoded
    response is [answerable]: an object whose content can be iterated and
    holds only objects whose text, where the type is [text], is a string.
    What the tools do has no part in it. *)
Theorem interpret_returns_iff_answerable content st parsed :
  json_loads (strip content) = Some parsed ->
  (exists answer st', Client.interpret content st = (Returned answer, st'))
  <-> Shape.answerable parsed = true.
Proof.
  intros Hj.
  destruct (Spec.is_object parsed) eqn:Hobj.
  - destruct parsed as [| | | | |d]; try discriminate.
    rewrite (interpret_object content st d Hj). unfold Shape.answerable.
    destruct (iter (default (PyList []) (dict_lookup "content" d))) as [items|e].
    + pose proof (items_outcome items st) as Hout.
      destruct (forallb Shape.item_ok items).
      * split; [reflexivity|intros _; exact Hout].
      * destruct Hout as (e & st' & ->). split; [|discriminate].
        now intros (answer & st'' & [=]).
    + split; [|discriminate]. now intros (answer & st'' & [=]).
  - rewrite (interpret_not_object content st parsed Hj Hobj).
    split; [now intros (answer & st'' & [=])|].
    destruct parsed; try discriminate.
Qed.


(** X3.  An item of the content list that is no object stops the step with
    [AttributeError]: the tools of the items before it have been called,
    those of the items after it are not, and no answer comes back. *)
Theorem non_object_item_aborts_the_step content st d pre v post :
  json_loads (strip content) = Some (PyDict d) ->
  dict_lookup "content" d = Some (PyList (pre ++ v :: post)) ->
  forallb Spec.is_object pre = true ->
  Spec.is_object v = false ->
  exists st1,
    Client.interpret content st = (Raised (no_attribute v "get"), st1)
    /\ calls st1 = (calls st ++ Shape.requested_calls pre)%list.
Proof.
  intros Hj Hc Hpre Hv. rewrite (interpret_object content st d Hj), Hc. simpl iter.
  destruct (for_items_non_object pre v post st Hpre Hv) as (st1 & Hrun & Hcalls).
  exists st1. unfold bind. now rewrite Hrun.
Qed.

Lemma strs_of_chunks cs :
  forallb Shape.is_str cs = true -> exists ls, cs = map PyStr ls.
Proof.
  induction cs as [|c cs IH]; simpl; [now exists []|].
  intros [Hc Hcs]%andb_prop. destruct c; try discriminate.
  destruct (IH Hcs) as [ls ->]. now exists (s :: ls).
Qed.

Lemma join_strings_first_bad ls v rest : forall i,
  Shape.is_str v = false ->
  join_strings i (map PyStr ls ++ v :: rest)
  = Raised (TypeError ("sequence item " ++ nat_str (i + length ls)
                         ++ ": expected str instance, " ++ type_name v ++ " found")).
Proof.
  induction ls as [|l ls IH]; intros i Hv; simpl.
  - rewrite Nat.add_0_r. now destruct v.
  - rewrite (IH (S i) Hv). now rewrite Nat.add_succ_r.
Qed.

(** X4.  A text item whose text is not a string makes the final join raise
    [TypeError], naming the position of the item and the type found.  The
    loop has run to its end by then: every [tool_use] item of the response,
    also those after the text, has had its tool called. *)
Theorem non_string_text_fails_after_the_tools content st d pre bad post v :
  json_loads (strip content) = Some (PyDict d) ->
  dict_lookup "content" d = Some (PyList (pre ++ PyDict bad :: post)) ->
  forallb Shape.item_ok pre = true ->
  eq_str (Shape.item_type bad) "text" = true ->
  dict_lookup "text" bad = Some v ->
  Shape.is_str v = false ->
  forallb Spec.is_object post = true ->
  exists st',
    Client.interpret content st
    = (Raised (TypeError ("sequence item " ++ nat_str (length pre)
                            ++ ": expected str instance, " ++ type_name v ++ " found")),
       st')
    /\ calls st'
       = (calls st ++ Shape.requested_calls (pre ++ PyDict bad :: post))%list.
Proof.
  intros Hj Hc Hpre Htext Hv Hstr Hpost.
  rewrite (interpret_object content st d Hj), Hc. simpl iter.
  pose proof (forallb_impl _ _ _ item_ok_object Hpre) as Hpre_obj.
  assert (Hobj : forallb Spec.is_object (pre ++ PyDict bad :: post) = true).
  { rewrite forallb_app. simpl. now rewrite Hpre_obj, Hpost. }
  destruct (for_items_trace _ st Hobj) as (cs & st' & Hrun & _ & _ & Hcalls & _).
  exists st'. split; [|exact Hcalls].
  destruct (for_items_trace pre st Hpre_obj) as (cs1 & st1 & Hrun1 & Hlen1 & Hstr1 & _).
  rewrite Hpre in Hstr1. destruct (strs_of_chunks cs1 Hstr1) as [ls ->].
  destruct (for_items_trace post st1 Hpost) as (cs2 & st2 & Hrun2 & _).
  assert (Hbad : Client.loop_body (PyDict bad) (map PyStr ls) st1
                 = (Returned (map PyStr ls ++ [v])%list, st1)).
  { unfold Client.loop_body, bind, lift, ret.
    change (get (PyDict bad) "type" PyNone) with (Returned (Shape.item_type bad)).
    cbv beta iota. rewrite Htext. unfold get. now rewrite Hv. }
  rewrite for_items_app, Hrun1 in Hrun. simpl Client.for_items in Hrun.
  unfold bind in Hrun. rewrite Hbad, for_items_acc, Hrun2 in Hrun.
  injection Hrun as <- <-.
  unfold bind, lift, join. rewrite for_items_app, Hrun1. simpl Client.for_items.
  unfold bind. rewrite Hbad, for_items_acc, Hrun2.
  rewrite <- app_assoc. simpl app.
  rewrite (join_strings_first_bad ls v cs2 0%nat Hstr).
  rewrite length_map in Hlen1. now rewrite Hlen1.
Qed.

(** X5.  A [content] that is present but is [null], a Boolean or a number
    makes the step raise [TypeError] before any tool is called: the empty
    default stands in for a missing key only. *)
Theorem content_that_cannot_be_iterated content st d v :
  json_loads (strip content) = Some (PyDict d) ->
  dict_lookup "content" d = Some v ->
  match v with PyList _ | PyDict _ | PyStr _ => False | _ => True end ->
  Client.interpret content st
  = (Raised (TypeError (sq ++ type_name v ++ sq ++ " object is not iterable")), st).
Proof.
  intros Hj Hc Hv. rewrite (interpret_object content st d Hj), Hc.
  now destruct v.
Qed.

Lemma lstrip_blank a s : Shape.blank a = true -> lstrip (a ++ s) = lstrip s.
Proof.
  induction a as [|c a IH]; [reflexivity|]. simpl Shape.blank.
  intros [Hc Ha]%andb_prop. change (String c a ++ s) with (String c (a ++ s)).
  cbn [lstrip]. rewrite Hc. now apply IH.
Qed.

Lemma rstrip_blank b : Shape.blank b = true -> rstrip b = EmptyString.
Proof.
  induction b as [|c b IH]; [reflexivity|]. simpl Shape.blank.
  intros [Hc Hb]%andb_prop. cbn [rstrip]. now rewrite (IH Hb), Hc.
Qed.

Lemma rstrip_app_blank s b : Shape.blank b = true -> rstrip (s ++ b) = rstrip s.
Proof.
  intros Hb. induction s as [|c s IH]; [now apply rstrip_blank|].
  change (String c s ++ b) with (String c (s ++ b)). cbn [rstrip]. now rewrite IH.
Qed.

Lemma strip_app_blank s b : Shape.blank b = true -> strip (s ++ b) = strip s.
Proof.
  intros Hb. unfold strip. induction s as [|c s IH].
  - change (EmptyString ++ b) with b. clear -Hb.
    induction b as [|c b IH]; [reflexivity|]. simpl in Hb.
    apply andb_prop in Hb as [Hc Hb]. cbn [lstrip]. rewrite Hc. now apply IH.
  - change (String c s ++ b) with (String c (s ++ b)). cbn [lstrip].
    destruct (isspace c); [exact IH|].
    change (String c (s ++ b)) with (String c s ++ b). now apply rstrip_app_blank.
Qed.

Lemma strip_padded a s b :
  Shape.blank a = true -> Shape.blank b = true -> strip (a ++ s ++ b) = strip s.
Proof.
  intros Ha Hb. unfold strip at 1. rewrite (lstrip_blank a _ Ha).
  now apply strip_app_blank.
Qed.

(** X6.  White space the oracle puts before or after its text plays no
    part: the step on the padded text is the run on the text itself. *)
Theorem interpret_ignores_outer_white_space before content after st :
  Shape.blank before = true ->
  Shape.blank after = true ->
  Client.interpret (before ++ content ++ after) st = Client.interpret content st.
Proof.
  intros Ha Hb. unfold Client.interpret. now rewrite (strip_padded _ _ _ Ha Hb).
Qed.

End Shapes.

(** ** A tool call inside a query cycle *)

Section ToolCalls.
Context {W : Type} `{Env W}.

(** What follows the loop does not touch the state. *)
Lemma bind_lift_state {A B} (m : M W A) (f : A -> result B) st :
  snd (bind m (fun a => lift (f a)) st) = snd (m st).
Proof. unfold bind, lift. now destruct (m st) as [[a|e] st']. Qed.

Lemma loop_body_calls_grow item acc st :
  exists more, calls (snd (Client.loop_body item acc st)) = (calls st ++ more)%list.
Proof.
  destruct item as [| | | | |d];
    try (exists []; cbn; now rewrite app_nil_r).
  rewrite loop_body_acc.
  destruct (loop_body_chunk d st) as (c & st' & Hrun & _ & Hcalls & _).
  rewrite Hrun. cbn. eauto.
Qed.

Lemma for_items_calls_grow items : forall acc st,
  exists more, calls (snd (Client.for_items items acc st)) = (calls st ++ more)%list.
Proof.
  induction items as [|item items IH]; intros acc st.
  - exists []. cbn. now rewrite app_nil_r.
  - simpl Client.for_items. unfold bind.
    destruct (loop_body_calls_grow item acc st) as (more & Hmore).
    destruct (Client.loop_body item acc st) as [[cs|e] st1]; cbn [snd] in Hmore.
    + destruct (IH cs st1) as (more' & Hmore').
      exists (more ++ more')%list. now rewrite Hmore', Hmore, app_assoc.
    + exists more. exact Hmore.
Qed.

(** C3 (amended).  In a content sequence of objects whose texts are
    strings, a [tool_use] item whose invocation raises puts the line
    [[Error executing tool '<name>': <message>]] at that item's place in
    the answer of [process_query]: after one line for each item before
    it, and before one line for each item after it, which are processed
    from the state the failed call left.  The cycle returns. *)
Theorem raising_tool_call_is_reported_in_place
    query st r st0 d0 pre d post cs st1 e w2 :
  let tool_name := default PyNone (dict_lookup "name" d) in
  let tool_input := default (PyDict []) (dict_lookup "input" d) in
  Client.ask_oracle query st = (Returned r, st0) ->
  json_loads (strip r) = Some (PyDict d0) ->
  dict_lookup "content" d0 = Some (PyList (pre ++ PyDict d :: post)) ->
  forallb Shape.item_ok (pre ++ PyDict d :: post) = true ->
  dict_lookup "type" d = Some (PyStr "tool_use") ->
  Client.for_items pre [] st0 = (Returned cs, st1) ->
  call_tool tool_name tool_input (world st1) = (Raised e, w2) ->
  exists before after st3,
    cs = map PyStr before
    /\ length before = length pre
    /\ Client.for_items post []
         {| world := w2;
            calls := (calls st1 ++ [(tool_name, tool_input)])%list;
            stdout := (stdout st1 ++ [Spec.announcement tool_name tool_input])%list |}
       = (Returned (map PyStr after), st3)
    /\ length after = length post
    /\ Client.process_query query st
       = (Returned
            (String.concat nl
               (before
                  ++ ("[Error executing tool '" ++ str tool_name ++ "': "
                        ++ exn_str e ++ "]")%string :: after)%list),
          st3).
Proof.
  intros tool_name tool_input Hask Hj Hc Hok Hty Hpre Hcall.
  rewrite forallb_app in Hok. apply andb_prop in Hok as [Hok_pre Hok_post].
  cbn [forallb] in Hok_post. apply andb_prop in Hok_post as [_ Hok_post].
  destruct (for_items_trace pre st0 (forallb_impl _ _ _ item_ok_object Hok_pre))
    as (cs' & st1' & Hrun & Hlen & Hstr & _).
  rewrite Hpre in Hrun. injection Hrun as <- <-.
  rewrite Hok_pre in Hstr. destruct (strs_of_chunks cs Hstr) as (before & ->).
  match goal with
  | |- context [Client.for_items post [] ?s] =>
      destruct (for_items_trace post s (forallb_impl _ _ _ item_ok_object Hok_post))
        as (cs_post & st3 & Hpost & Hlen_post & Hstr_post & _)
  end.
  rewrite Hok_post in Hstr_post. destruct (strs_of_chunks cs_post Hstr_post) as (after & ->).
  rewrite length_map in Hlen, Hlen_post.
  exists before, after, st3. repeat split; trivial.
  unfold Client.process_query. rewrite (bind_returned _ _ _ _ _ Hask).
  rewrite (interpret_object r st0 d0 Hj), Hc. simpl iter. cbv iota.
  unfold bind at 1. rewrite for_items_app, Hpre. simpl Client.for_items. unfold bind at 1.
  rewrite (loop_body_tool_use d (map PyStr before) st1 Hty).
  fold tool_name tool_input. rewrite Hcall. cbn [fst snd Spec.tool_line].
  rewrite for_items_acc, Hpost. unfold lift.
  rewrite <- app_assoc. cbn [app].
  match goal with
  | |- context [PyStr ?line :: map PyStr after] =>
      change (PyStr line :: map PyStr after) with (map PyStr (line :: after))
  end.
  now rewrite <- map_app, join_strs.
Qed.

(** C9.  When the items before it are objects, a [tool_use] item without
    the key [input] is reached by the loop of [process_query], in the
    client and in the host, and its tool is called with the empty object
    as arguments: the call follows those of the items before it. *)
Theorem tool_use_without_input_is_called_with_empty_object
    query q st_client st_host r st0_client st0_host d0 pre d post :
  let tool_name := default PyNone (dict_lookup "name" d) in
  json_loads (strip r) = Some (PyDict d0) ->
  dict_lookup "content" d0 = Some (PyList (pre ++ PyDict d :: post)) ->
  forallb Spec.is_object pre = true ->
  dict_lookup "type" d = Some (PyStr "tool_use") ->
  dict_lookup "input" d = None ->
  (Client.ask_oracle query st_client = (Returned r, st0_client) ->
   exists later,
     calls (snd (Client.process_query query st_client))
     = (calls st_client ++ Shape.requested_calls pre
          ++ (tool_name, PyDict []) :: later)%list)
  /\ (Host.ask_oracle q st_host = (Returned r, st0_host) ->
      exists later,
        calls (snd (Host.process_query q st_host))
        = (calls st_host ++ Shape.requested_calls pre
             ++ (tool_name, PyDict []) :: later)%list).
Proof.
  intros tool_name Hj Hc Hobj Hty Hin.
  assert (Hstep : forall st0, exists later,
             calls (snd (Client.interpret r st0))
             = (calls st0 ++ Shape.requested_calls pre
                  ++ (tool_name, PyDict []) :: later)%list).
  { intros st0. rewrite (interpret_object r st0 d0 Hj), Hc. simpl iter. cbv iota.
    rewrite bind_lift_state, for_items_app.
    destruct (for_items_trace pre st0 Hobj) as (cs & st1 & Hrun & _ & _ & Hcalls & _).
    rewrite Hrun. simpl Client.for_items. unfold bind at 1.
    rewrite (loop_body_tool_use d cs st1 Hty), Hin. cbn [default].
    match goal with
    | |- context [Client.for_items post ?acc ?s] =>
        destruct (for_items_calls_grow post acc s) as (later & Hlater)
    end.
    exists later. rewrite Hlater. cbn [calls]. fold tool_name.
    rewrite Hcalls, <- !app_assoc. reflexivity. }
  split; intros Hask.
  - destruct (Hstep st0_client) as (later & Hlater). exists later.
    unfold Client.process_query. rewrite (bind_returned _ _ _ _ _ Hask), Hlater.
    now destruct (client_ask_oracle_quiet _ _ _ _ Hask) as [-> _].
  - destruct (Hstep st0_host) as (later & Hlater). exists later.
    unfold Host.process_query. rewrite (bind_returned _ _ _ _ _ Hask), interpret_same, Hlater.
    now destruct (host_ask_oracle_quiet _ _ _ _ Hask) as [-> _].
Qed.

End ToolCalls.

(** The session has lost its server: the call of [get_phenomena] raises
    between two texts, and the answer has the three lines. *)
Lemma raising_tool_call_witness :
  let r := js "{'content':[{'type':'text','text':'A'},{'type':'tool_use','name':'get_phenomena','input':{}},{'type':'text','text':'B'}]}" in
  exists before after st3,
    [PyStr "A"] = map PyStr before
    /\ length before = 1%nat
    /\ Client.for_items (H := Stage.hung_up) [say "B"] []
         {| world := [];
            calls := [(PyStr "get_phenomena", PyDict [])];
            stdout := [Spec.announcement (PyStr "get_phenomena") (PyDict [])] |}
       = (Returned (map PyStr after), st3)
    /\ length after = 1%nat
    /\ Client.process_query (H := Stage.hung_up) "q" (start [Returned r])
       = (Returned
            (String.concat nl
               (before
                  ++ "[Error executing tool 'get_phenomena': Connection closed]"
                  :: after)%list),
          st3).
Proof.
  intros r.
  exact (raising_tool_call_is_reported_in_place (H := Stage.hung_up)
           "q" (start [Returned r]) r (start [])
           [("content",
             PyList [say "A"; use_with "get_phenomena" (PyDict []); say "B"])]
           [say "A"]
           [("type", PyStr "tool_use"); ("name", PyStr "get_phenomena");
            ("input", PyDict [])]
           [say "B"] [PyStr "A"] (start []) (OtherError "Connection closed") []
           eq_refl eq_refl eq_refl eq_refl eq_refl eq_refl eq_refl).
Defined.

(** The claim C3 as the specification words it fails on a channel that
    answers a call of the unknown tool [foo] with a result that reports
    the error: nothing is raised, and the line at the item's place is a
    result line, not an error line. *)
Lemma unknown_tool_is_answered_as_a_result :
  let r := js "{'content':[{'type':'tool_use','name':'foo'},{'type':'text','text':'B'}]}" in
  Client.process_query (H := Stage.reporting) "q" (start [Returned r])
  = (Returned
       ("[Tool 'foo' executed with result: meta=None content=[TextContent(type='text', text='Unknown tool: foo', annotations=None)] isError=True]"
          ++ nl ++ "B"),
     {| world := [];
        calls := [(PyStr "foo", PyDict [])];
        stdout := [Spec.announcement (PyStr "foo") (PyDict [])] |})
  /\ forall message rest,
       fst (Client.process_query (H := Stage.reporting) "q" (start [Returned r]))
       <> Returned ("[Error executing tool 'foo': " ++ message ++ "]" ++ rest).
Proof.
  intros r. split; [vm_compute; reflexivity|].
  intros message rest Heq. vm_compute in Heq. discriminate.
Qed.

(** A text, a call of [list_celestial_bodies] that names no input, and the
    number 5, at which the loop stops: the call has been made. *)
Lemma tool_use_without_input_witness :
  let r := js "{'content':[{'type':'text','text':'A'},{'type':'tool_use','name':'list_celestial_bodies'},5]}" in
  (exists later,
     calls (snd (Client.process_query "q" (start [Returned r])))
     = ([] ++ Shape.requested_calls [say "A"]
          ++ (PyStr "list_celestial_bodies", PyDict []) :: later)%list)
  /\ (exists later,
        calls (snd (Host.process_query (PyStr "q") (start [Returned r])))
        = ([] ++ Shape.requested_calls [say "A"]
             ++ (PyStr "list_celestial_bodies", PyDict []) :: later)%list).
Proof.
  intros r.
  refine (match tool_use_without_input_is_called_with_empty_object
                  "q" (PyStr "q") (start [Returned r]) (start [Returned r]) r
                  (start []) (start [])
                  [("content", PyList [say "A"; use "list_celestial_bodies"; PyInt 5])]
                  [say "A"]
                  [("type", PyStr "tool_use"); ("name", PyStr "list_celestial_bodies")]
                  [PyInt 5] _ _ _ _ _
          with
          | conj Hclient Hhost => conj (Hclient _) (Hhost _)
          end); reflexivity.
Defined.

(** The oracle gives the client and the host the same text, a call and a
    text. *)
Lemma process_query_agree_witness :
  let r := js "{'content':[{'type':'tool_use','name':'list_celestial_bodies'},{'type':'text','text':'A'}]}" in
  Client.process_query "hi" (start [Returned r])
  = Host.process_query (PyStr "hi") (start [Returned r]).
Proof.
  intros r.
  exact (process_query_of_client_and_host_agree "hi" (PyStr "hi")
           (start [Returned r]) (start [Returned r]) r (start []) eq_refl eq_refl).
Defined.

(** ** Failures around the oracle, and the HTTP handler *)

Section Cycle.
Context {W : Type} `{Env W}.

(** X7.  When fetching the catalogue fails, [process_query] fails with that
    exception and stops there: the world is the one [list_tools] left, so
    the oracle is not consulted, and no tool is called. *)
Theorem catalogue_failure_stops_the_cycle query st e w1 :
  list_tools (world st) = (Raised e, w1) ->
  Client.process_query query st
  = (Raised e, {| world := w1; calls := calls st; stdout := stdout st |}).
Proof.
  intros Hl. unfold Client.process_query, Client.ask_oracle, bind,
    session_list_tools, on_world. now rewrite Hl.
Qed.

(** X8.  When the oracle call fails, [process_query] fails with that
    exception; no tool is called and nothing is printed. *)
Theorem oracle_failure_stops_the_cycle query st tools w1 e w2 :
  list_tools (world st) = (Returned tools, w1) ->
  chat_completion (Client.system_prompt query (PyList (map tool_entry tools)))
    (PyStr query) w1 = (Raised e, w2) ->
  Client.process_query query st
  = (Raised e, {| world := w2; calls := calls st; stdout := stdout st |}).
Proof.
  intros Hl Ho. unfold Client.process_query, Client.ask_oracle, bind,
    session_list_tools, openai_chat, on_world. rewrite Hl.
  cbv beta iota zeta. cbn [world]. now rewrite Ho.
Qed.

(** X9.  When the negotiation step fails, [handle_query] fails with its
    exception and the presentation pass is not attempted: the state is the
    one [process_query] left. *)
Theorem negotiation_failure_skips_presentation request st q e st1 :
  Host.query_of request = Returned q ->
  Host.process_query q st = (Raised e, st1) ->
  Host.handle_query request st = (Raised e, st1).
Proof.
  intros Hq Hrun. unfold Host.handle_query. rewrite Hq, bind_lift_returned.
  now rewrite (bind_raised _ _ _ _ _ Hrun).
Qed.

(** X10.  When both steps succeed, the handler's response is the object
    with the one key [result], whose value is the presentation pass's text
    stripped of the white space around it; the negotiation answer goes to
    the oracle, as the subject of the prompt and as the user message, and
    is not returned. *)
Theorem handler_returns_the_presentation_text request st q text st1 reply w2 :
  Host.query_of request = Returned q ->
  Host.process_query q st = (Returned text, st1) ->
  chat_completion (Host.prettify_prompt text) (PyStr text) (world st1)
  = (Returned reply, w2) ->
  Host.handle_query request st
  = (Returned (PyDict [("result", PyStr (strip reply))]),
     {| world := w2; calls := calls st1; stdout := stdout st1 |}).
Proof.
  intros Hq Hrun Horacle.
  unfold Host.handle_query. rewrite Hq, bind_lift_returned.
  rewrite (bind_returned _ _ _ _ _ Hrun).
  cbv beta zeta delta [bind Host.prettify_output openai_chat on_world ret].
  now rewrite Horacle.
Qed.

(** X11.  A request that is no GET and whose JSON body is not an object is
    refused with [AttributeError] before anything else happens: no
    catalogue is fetched, no oracle consulted, no tool called. *)
Theorem body_that_is_no_object_is_refused request st body :
  String.eqb (Host.method request) "GET" = false ->
  Host.json_body request = Returned body ->
  Spec.is_object body = false ->
  Host.handle_query request st = (Raised (no_attribute body "get"), st).
Proof.
  intros Hm Hb Hobj. unfold Host.handle_query, Host.query_of.
  rewrite Hm, Hb. destruct body; try reflexivity. discriminate.
Qed.

(** X12.  The handler's outcome depends on the request only through the
    negotiation step: two requests whose [process_query] runs end alike get
    the same response, because the presentation pass is handed the
    negotiation answer and never the query. *)
Theorem presentation_never_sees_the_query request1 request2 st1 st2 q1 q2 :
  Host.query_of request1 = Returned q1 ->
  Host.query_of request2 = Returned q2 ->
  Host.process_query q1 st1 = Host.process_query q2 st2 ->
  Host.handle_query request1 st1 = Host.handle_query request2 st2.
Proof.
  intros Hq1 Hq2 Hsame. unfold Host.handle_query.
  rewrite Hq1, Hq2, !bind_lift_returned. unfold bind at 1 3. now rewrite Hsame.
Qed.

End Cycle.

(** ** The system prompts *)

Section Prompts.

Lemma append_assoc (a b c : string) : (a ++ b) ++ c = a ++ b ++ c.
Proof.
  induction a as [|x a IH]; [reflexivity|].
  change (String x (a ++ b) ++ c = String x (a ++ b ++ c)).
  change (String x ((a ++ b) ++ c) = String x (a ++ b ++ c)). now rewrite IH.
Qed.

Lemma append_not_empty (a b : string) : b <> EmptyString -> a ++ b <> EmptyString.
Proof. destruct a; [trivial|discriminate]. Qed.

(** [rstrip] leaves alone what comes before something it keeps. *)
Lemma rstrip_app_kept (a b : string) :
  rstrip b <> EmptyString -> rstrip (a ++ b) = a ++ rstrip b.
Proof.
  intros Hb. induction a as [|x a IH]; [reflexivity|].
  change (String x a ++ b) with (String x (a ++ b)).
  change (String x a ++ rstrip b) with (String x (a ++ rstrip b)).
  cbn [rstrip]. rewrite IH.
  destruct (a ++ rstrip b) eqn:Hab; [|reflexivity].
  now destruct (append_not_empty a _ Hb).
Qed.

Lemma concat_cons (line : string) (lines : list string) :
  lines <> [] -> String.concat nl (line :: lines) = line ++ nl ++ String.concat nl lines.
Proof. now destruct lines. Qed.

Lemma concat_snoc (lines : list string) (last : string) :
  lines <> [] ->
  String.concat nl (lines ++ [last]) = String.concat nl lines ++ nl ++ last.
Proof.
  induction lines as [|line lines IH]; [congruence|]. intros _.
  destruct lines as [|line' lines]; [reflexivity|].
  change ((line :: line' :: lines) ++ [last])%list
    with (line :: ((line' :: lines) ++ [last]))%list.
  rewrite concat_cons by discriminate. rewrite IH by discriminate.
  rewrite (concat_cons line (line' :: lines)) by discriminate.
  now rewrite !append_assoc.
Qed.

(** Lines of which the last is blank and the one before ends in no white
    space: [rstrip] takes the blank line away and nothing else. *)
Lemma rstrip_lines (lines : list string) (last blanks : string) :
  rstrip last = last -> last <> EmptyString -> Shape.blank blanks = true ->
  rstrip (String.concat nl (lines ++ [last; blanks]))
  = String.concat nl (lines ++ [last])
  /\ String.concat nl (lines ++ [last]) <> EmptyString.
Proof.
  intros Hlast Hne Hblank. induction lines as [|line lines [IH IHne]].
  - split; [|exact Hne]. cbn [app String.concat].
    rewrite (rstrip_app_blank last (nl ++ blanks)); [exact Hlast|].
    change (nl ++ blanks) with (String "010" blanks). simpl. exact Hblank.
  - change ((line :: lines) ++ [last; blanks])%list
      with (line :: (lines ++ [last; blanks]))%list.
    change ((line :: lines) ++ [last])%list with (line :: (lines ++ [last]))%list.
    rewrite !concat_cons by (now destruct lines).
    split.
    + rewrite rstrip_app_kept; [rewrite rstrip_app_kept; now rewrite IH|].
      rewrite rstrip_app_kept by now rewrite IH. apply append_not_empty.
      now rewrite IH.
    + now apply append_not_empty, append_not_empty.
Qed.

Lemma rstrip_concat (ls : list string) :
  ls <> [] -> removelast ls <> [] ->
  Shape.blank (List.last ls EmptyString) = true ->
  rstrip (List.last (removelast ls) EmptyString) = List.last (removelast ls) EmptyString ->
  List.last (removelast ls) EmptyString <> EmptyString ->
  rstrip (String.concat nl ls) = String.concat nl (removelast ls).
Proof.
  intros Hls Hbody Hblank Hlast Hne.
  rewrite (app_removelast_last EmptyString Hls) at 1.
  destruct (exists_last Hbody) as (lines & last & Hb). rewrite Hb in *.
  rewrite last_last in Hlast, Hne.
  rewrite <- app_assoc. cbn [app].
  now apply rstrip_lines.
Qed.

(** X13.  The client's system prompt is its template with the query and the
    serialised catalogue spliced in as they are: the final [strip] takes
    away the template's own first and last line and nothing of the query
    or of the catalogue, whatever white space they hold. *)
Theorem client_prompt_splices_verbatim (query : string) (available_tools : pyval) :
  Client.system_prompt query available_tools
  = String.concat nl
      (removelast (tl (Client.prompt_lines query (Json.dumps available_tools)))).
Proof.
  unfold Client.system_prompt, strip.
  transitivity
    (rstrip (String.concat nl
               (tl (Client.prompt_lines query (Json.dumps available_tools))))).
  - reflexivity.
  - apply rstrip_concat; try discriminate; reflexivity.
Qed.

Lemma host_prompt_closed (query : pyval) (available_tools : pyval) :
  Host.system_prompt query available_tools
  = String.concat nl
      (removelast (tl (Host.prompt_lines (str query) (Json.dumps available_tools)))).
Proof.
  unfold Host.system_prompt, strip.
  transitivity
    (rstrip (String.concat nl
               (tl (Host.prompt_lines (str query) (Json.dumps available_tools))))).
  - reflexivity.
  - apply rstrip_concat; try discriminate; reflexivity.
Qed.

(** X14.  For a query that is a string, the host's system prompt is the
    client's followed by one more line, the request for a readable
    form. *)
Theorem host_prompt_extends_client_prompt (query : string) (available_tools : pyval) :
  Host.system_prompt (PyStr query) available_tools
  = Client.system_prompt query available_tools ++ nl
      ++ "After you have used the tools return the response is a nice human readable form."
      ++ " For example if there are multiple results return a table.".
Proof.
  rewrite host_prompt_closed.
  transitivity
    (String.concat nl
       (removelast (tl (Client.prompt_lines query (Json.dumps available_tools)))
          ++ [("After you have used the tools return the response is a nice human readable form."
                 ++ " For example if there are multiple results return a table.")%string])%list).
  - reflexivity.
  - rewrite concat_snoc by discriminate.
    unfold Client.system_prompt, strip.
    f_equal. symmetry.
    transitivity
      (rstrip (String.concat nl
                 (tl (Client.prompt_lines query (Json.dumps available_tools))))).
    + reflexivity.
    + apply rstrip_concat; try discriminate; reflexivity.
Qed.

End Prompts.

(** ** The requests and the results of the tools *)

Section Requests.
Import Engine.
Context {W : Type}.
Variables (base_url subscription_key : string).
Variable http_get : HttpRequest -> W -> result pyval * W.

Local Abbreviation celestial_request := (celestial_request base_url subscription_key http_get).
Local Abbreviation list_celestial_bodies := (list_celestial_bodies base_url subscription_key http_get).
Local Abbreviation list_phenomena := (list_phenomena base_url subscription_key http_get).
Local Abbreviation get_phenomena := (get_phenomena base_url subscription_key http_get).
Local Abbreviation moon_visibility := (moon_visibility base_url subscription_key http_get).

(** X15.  [celestial_request] sends exactly one request, to the base URL
    followed by the endpoint, with the parameters it was given and a
    timeout of 30; the subscription key is its only header, and an empty
    key gives no header at all. *)
Theorem celestial_request_sends_one_get endpoint query_params (st : state) :
  exists request,
    sent (snd (celestial_request endpoint query_params st))
    = (sent st ++ [request])%list
    /\ url request = base_url ++ endpoint
    /\ params request = query_params
    /\ timeout request = 30
    /\ headers request !! "Ocp-Apim-Subscription-Key"
       = (if String.eqb subscription_key EmptyString then None
          else Some subscription_key)
    /\ forall k, k <> "Ocp-Apim-Subscription-Key" -> headers request !! k = None.
Proof.
  unfold Engine.celestial_request.
  match goal with
  | |- context [http_get ?req (world st)] =>
      exists req; destruct (http_get req (world st)) as [r w]
  end.
  cbn [snd sent url params timeout headers].
  repeat split.
  - destruct (String.eqb subscription_key EmptyString); simpl; now simplify_map_eq.
  - intros k Hk. destruct (String.eqb subscription_key EmptyString); simpl;
      now simplify_map_eq.
Qed.

Lemma dump_reply_returned r data :
  fst r = Returned data -> fst (dump_reply (W := W) r) = Returned (Json.dumps data).
Proof. destruct r as [[d|e] st']; simpl; congruence. Qed.

Lemma dump_reply_raised r e :
  fst r = Raised e -> fst (dump_reply (W := W) r) = Raised e.
Proof. destruct r as [[d|e'] st']; simpl; congruence. Qed.

Lemma celestial_request_outcome endpoint query_params (st : state) :
  exists request,
    fst (celestial_request endpoint query_params st)
    = fst (http_get request (world st)).
Proof.
  unfold Engine.celestial_request.
  match goal with
  | |- context [http_get ?req (world st)] =>
      exists req; now destruct (http_get req (world st))
  end.
Qed.

(** X16.  When the service answers a request with JSON data, each of the
    four tools returns a text that [json.loads] decodes back to that very
    data. *)
Theorem tool_results_decode_to_the_service_data data body args mv_args (st : state) :
  (forall request, fst (http_get request (world st)) = Returned data) ->
  Spec.wf data = true ->
  exists text,
    Json.loads text = Some data
    /\ fst (list_celestial_bodies st) = Returned text
    /\ fst (list_phenomena body st) = Returned text
    /\ fst (get_phenomena args st) = Returned text
    /\ fst (moon_visibility mv_args st) = Returned text.
Proof.
  intros Hget Hwf. exists (Json.dumps data).
  split; [now apply loads_dumps|].
  unfold Engine.list_celestial_bodies, Engine.list_phenomena,
    Engine.get_phenomena, Engine.moon_visibility.
  repeat split; apply dump_reply_returned;
    match goal with
    | |- fst (celestial_request ?e ?q st) = _ =>
        destruct (celestial_request_outcome e q st) as [request ->]
    end; apply Hget.
Qed.

(** X17.  When the request fails, for the transport, a status that is no
    success or a body that is no JSON, each of the four tools raises that
    exception and returns no text. *)
Theorem tool_raises_what_the_request_raised e body args mv_args (st : state) :
  (forall request, fst (http_get request (world st)) = Raised e) ->
  fst (list_celestial_bodies st) = Raised e
  /\ fst (list_phenomena body st) = Raised e
  /\ fst (get_phenomena args st) = Raised e
  /\ fst (moon_visibility mv_args st) = Raised e.
Proof.
  intros Hget.
  unfold Engine.list_celestial_bodies, Engine.list_phenomena,
    Engine.get_phenomena, Engine.moon_visibility.
  repeat split; apply dump_reply_raised;
    match goal with
    | |- fst (celestial_request ?e ?q st) = _ =>
        destruct (celestial_request_outcome e q st) as [request ->]
    end; apply Hget.
Qed.

(** X18.  [moon_visibility] sends one request to [/moon-visibility] whose
    query parameters are exactly [latitude], [longitude], [startDate],
    [endDate] and [timezone], each with the argument's string: here the
    time zone is always sent. *)
Theorem moon_visibility_query_parameters (args : MoonVisibilityArgs) (st : state) :
  exists request p,
    sent (snd (moon_visibility args st)) = (sent st ++ [request])%list
    /\ url request = base_url ++ "/moon-visibility"
    /\ params request = Some p
    /\ p !! "latitude" = Some (PString (mv_latitude args))
    /\ p !! "longitude" = Some (PString (mv_longitude args))
    /\ p !! "startDate" = Some (PString (mv_startDate args))
    /\ p !! "endDate" = Some (PString (mv_endDate args))
    /\ p !! "timezone" = Some (PString (mv_timezone args))
    /\ forall k, is_Some (p !! k) ->
         In k ["latitude"; "longitude"; "startDate"; "endDate"; "timezone"].
Proof.
  unfold Engine.moon_visibility, Engine.celestial_request.
  match goal with
  | |- context [http_get ?req (world st)] =>
      exists req; destruct (http_get req (world st)) as [[data|e] w]
  end; eexists; cbn -[insert lookup In];
    (split; [reflexivity|]); (split; [reflexivity|]); (split; [reflexivity|]);
    repeat (split; [now simplify_map_eq|]);
    intros k Hk;
    repeat (apply lookup_insert_is_Some in Hk as [<-|[? Hk]]; [simpl; tauto|]);
    now apply lookup_empty_is_Some in Hk.
Qed.

(** X19.  [get_phenomena] sends its request to
    [/celestial-bodies/<body>/phenomena/<phenomena>], the two names spliced
    into the path as they are, and its query parameters have no key beyond
    the eight of the tool: the body and the phenomenon are never repeated
    in the query. *)
Theorem get_phenomena_path_and_keys (args : PhenomenaArgs) (st : state) :
  exists request p,
    sent (snd (get_phenomena args st)) = (sent st ++ [request])%list
    /\ url request
       = base_url ++ "/celestial-bodies/" ++ body args ++ "/phenomena/" ++ phenomena args
    /\ params request = Some p
    /\ forall k, is_Some (p !! k) ->
         In k ["latitude"; "longitude"; "startDate"; "endDate";
               "timezone"; "useBst"; "depression"; "altitude"].
Proof.
  unfold Engine.get_phenomena, Engine.celestial_request.
  match goal with
  | |- context [http_get ?req (world st)] =>
      exists req, (get_phenomena_params args);
      destruct (http_get req (world st)) as [[data|e] w]
  end; cbn -[insert lookup In get_phenomena_params];
    (split; [reflexivity|]); (split; [reflexivity|]); (split; [reflexivity|]);
    intros k Hk; unfold get_phenomena_params in Hk;
    destruct (timezone args), (useBst args), (depression args), (altitude args);
    repeat (apply lookup_insert_is_Some in Hk as [<-|[? Hk]]; [simpl; tauto|]);
    now apply lookup_empty_is_Some in Hk.
Qed.

End Requests.

(** ** The command line of the client *)

Section CommandLine.
Import Cli.
Context {W : Type} `{Env W} `{Transport W}.

Lemma substring_whole (s : string) : substring 0 (String.length s) s = s.
Proof. induction s as [|c s IH]; simpl; [reflexivity|now rewrite IH]. Qed.

Lemma substring_suffix (pre suf : string) :
  substring (String.length pre) (String.length suf) (pre ++ suf) = suf.
Proof. induction pre as [|c pre IH]; simpl; [apply substring_whole|exact IH]. Qed.

Lemma substring_split (s : string) : forall k,
  (k <= String.length s)%nat ->
  s = substring 0 k s ++ substring k (String.length s - k) s.
Proof.
  induction s as [|c s IH]; intros [|k] Hk; simpl in *; try reflexivity; try lia.
  - now rewrite substring_whole.
  - transitivity (String c (substring 0 k s ++ substring k (String.length s - k) s));
      [f_equal; apply IH; lia|reflexivity].
Qed.

Lemma length_app (a b : string) :
  String.length (a ++ b) = (String.length a + String.length b)%nat.
Proof. induction a as [|c a IH]; simpl; [reflexivity|now rewrite IH]. Qed.

Lemma endswith_spec (s suffix : string) :
  endswith s suffix = true <-> exists prefix, s = prefix ++ suffix.
Proof.
  unfold endswith. rewrite andb_true_iff, Nat.leb_le, String.eqb_eq. split.
  - intros [Hle Hsub].
    exists (substring 0 (String.length s - String.length suffix) s).
    pose proof (substring_split s (String.length s - String.length suffix)) as Hs.
    replace (String.length s - (String.length s - String.length suffix))%nat
      with (String.length suffix) in Hs by lia.
    rewrite Hsub in Hs. apply Hs. lia.
  - intros [prefix ->]. rewrite length_app. split; [lia|].
    replace (String.length prefix + String.length suffix - String.length suffix)%nat
      with (String.length prefix) by lia.
    apply substring_suffix.
Qed.

(** X20.  A path that is not some prefix followed by [.py] is refused
    before anything is spawned: [connect_to_server] raises and leaves the
    process as it was. *)
Theorem connect_refuses_a_script_that_is_no_py path (p : process) :
  (forall prefix, path <> prefix ++ ".py") ->
  connect_to_server path p
  = (Raised (OtherError "Please provide a .py server script."), p).
Proof.
  intros Hno. unfold connect_to_server.
  destruct (endswith path ".py") eqn:E; [|reflexivity].
  apply endswith_spec in E as [prefix ->]. now destruct (Hno prefix).
Qed.

Lemma connect_trace path (p : process) :
  exists new,
    exit_stack (snd (connect_to_server path p)) = (rev new ++ exit_stack p)%list
    /\ entered (snd (connect_to_server path p)) = (entered p ++ new)%list
    /\ exited (snd (connect_to_server path p)) = exited p
    /\ stdin (snd (connect_to_server path p)) = stdin p
    /\ (new = [] \/ new = [StdioTransport] \/ new = [StdioTransport; Session])
    /\ (forall u, fst (connect_to_server path p) = Returned u ->
        new = [StdioTransport; Session]).
Proof.
  unfold connect_to_server.
  destruct (endswith path ".py"); cbn [negb].
  2:{ exists []. cbn. rewrite app_nil_r. repeat split; auto. discriminate. }
  unfold pbind, enter_async_context, on_transport, on_cycle, on_world, with_cycle,
    session_list_tools, on_world, print.
  destruct p as [[w cs out] inp ai stack ent ex]. cbn.
  destruct (stdio_client sys_executable [path] w) as [[[]|e] w1]; cbn.
  2:{ exists []. cbn. rewrite app_nil_r. repeat split; auto. discriminate. }
  destruct (client_session w1) as [[[]|e] w2]; cbn.
  2:{ exists [StdioTransport]. cbn. repeat split; auto. discriminate. }
  exists [StdioTransport; Session].
  destruct (initialize w2) as [[[]|e] w3]; cbn;
    [destruct (list_tools w3) as [[tools|e] w4]; cbn|];
    rewrite <- ?app_assoc; repeat split; auto.
Qed.

(** X21.  Whatever [connect_to_server] meets, the exit stack holds exactly
    the contexts it entered, the last one first: none, the transport alone,
    or the transport and the session; when it returns, both.  It leaves no
    context and reads no input. *)
Theorem connect_keeps_the_exit_stack_in_step path (p : process) :
  exists new,
    exit_stack (snd (connect_to_server path p)) = (rev new ++ exit_stack p)%list
    /\ entered (snd (connect_to_server path p)) = (entered p ++ new)%list
    /\ exited (snd (connect_to_server path p)) = exited p
    /\ stdin (snd (connect_to_server path p)) = stdin p
    /\ (new = [] \/ new = [StdioTransport] \/ new = [StdioTransport; Session])
    /\ (forall u, fst (connect_to_server path p) = Returned u ->
        new = [StdioTransport; Session]).
Proof. exact (connect_trace path p). Qed.

Lemma turn_outcome (p : process) :
  match stdin p with
  | [] =>
      exists st, turn p
      = (Returned false,
         {| cycle := st; stdin := []; openai := openai p;
            exit_stack := exit_stack p; entered := entered p; exited := exited p |})
  | line :: rest =>
      turn p
      = (Returned (is_quit line),
         {| cycle := if is_quit line then snd (print (nl ++ "Query: ") (cycle p))
                     else serve line (cycle p);
            stdin := rest; openai := openai p;
            exit_stack := exit_stack p; entered := entered p; exited := exited p |})
  end.
Proof.
  destruct p as [st inp ai stack ent ex]. cbn [stdin openai exit_stack entered exited cycle].
  destruct inp as [|line rest].
  - eexists. reflexivity.
  - unfold turn, ptry, pbind, input, is_quit, serve. cbn -[Client.process_query strip lower String.eqb].
    destruct (String.eqb (lower (strip line)) "quit"); [reflexivity|].
    unfold on_cycle. cbn -[Client.process_query strip lower String.eqb].
    destruct (Client.process_query (strip line) _) as [[response|e] st1]; reflexivity.
Qed.

Lemma while_true_quit before : forall (p : process) fuel line after,
  stdin p = (before ++ line :: after)%list ->
  forallb (fun l => negb (is_quit l)) before = true ->
  is_quit line = true ->
  (length before < fuel)%nat ->
  while_true fuel p
  = Some (Returned tt,
          {| cycle := snd (print (nl ++ "Query: ")
                             (fold_left (fun st l => serve l st) before (cycle p)));
             stdin := after; openai := openai p;
             exit_stack := exit_stack p; entered := entered p; exited := exited p |}).
Proof.
  induction before as [|l before IH]; intros p fuel line after Hin Hno Hquit Hfuel;
    (destruct fuel as [|fuel]; [simpl in Hfuel; lia|]);
    cbn [while_true]; pose proof (turn_outcome p) as Hturn; rewrite Hin in Hturn;
    cbn [app] in Hturn; rewrite Hturn.
  - rewrite Hquit. reflexivity.
  - cbn [forallb] in Hno. apply andb_true_iff in Hno as [Hl Hno].
    apply negb_true_iff in Hl. rewrite Hl.
    cbn [fold_left].
    match goal with
    | |- while_true _ ?q = _ => apply (IH q fuel line after eq_refl Hno Hquit)
    end. simpl in Hfuel. lia.
Qed.

Lemma while_true_spins : forall fuel (p : process),
  forallb (fun l => negb (is_quit l)) (stdin p) = true ->
  while_true fuel p = None.
Proof.
  induction fuel as [|fuel IH]; intros p Hno; [reflexivity|].
  cbn [while_true]. pose proof (turn_outcome p) as Hturn.
  destruct (stdin p) as [|l rest].
  - destruct Hturn as [st ->]. now apply IH.
  - cbn [forallb] in Hno. apply andb_true_iff in Hno as [Hl Hno].
    apply negb_true_iff in Hl. rewrite Hturn, Hl. now apply IH.
Qed.

Lemma while_true_ended : forall fuel (p : process) r p',
  while_true fuel p = Some (r, p') ->
  r = Returned tt
  /\ exit_stack p' = exit_stack p /\ entered p' = entered p /\ exited p' = exited p
  /\ exists before line,
       stdin p = (before ++ line :: stdin p')%list
       /\ is_quit line = true
       /\ forallb (fun l => negb (is_quit l)) before = true.
Proof.
  induction fuel as [|fuel IH]; intros p r p' Hrun; [discriminate|].
  cbn [while_true] in Hrun. pose proof (turn_outcome p) as Hturn.
  destruct (stdin p) as [|l rest].
  - destruct Hturn as [st Hturn]. rewrite Hturn in Hrun.
    apply IH in Hrun as (_ & _ & _ & _ & before & line & Hin & _).
    now destruct before.
  - rewrite Hturn in Hrun. destruct (is_quit l) eqn:Hl.
    + injection Hrun as <- <-. cbn. repeat split. now exists [], l.
    + apply IH in Hrun as (-> & Hs & He & Hx & before & line & Hin & Hquit & Hno).
      cbn in *. repeat split; trivial.
      exists (l :: before), line. cbn. rewrite Hl, Hno, Hin. auto.
Qed.

(** X22.  [chat_loop] ends at the first line that reads [quit] once
    stripped and lowered: the lines before it were each served in order,
    the quit line was prompted for, and the lines after it are left
    unread.  One turn per line is enough. *)
Theorem chat_loop_stops_at_the_first_quit before line after (p : process) fuel :
  stdin p = (before ++ line :: after)%list ->
  forallb (fun l => negb (is_quit l)) before = true ->
  is_quit line = true ->
  (length before < fuel)%nat ->
  chat_loop fuel p
  = Some (Returned tt,
          {| cycle :=
               snd (print (nl ++ "Query: ")
                      (fold_left (fun st l => serve l st) before
                         (snd (print
                                 (nl ++ "MCP Client Started! Type your query or 'quit' to exit.")
                                 (cycle p)))));
             stdin := after; openai := openai p;
             exit_stack := exit_stack p; entered := entered p; exited := exited p |}).
Proof.
  intros Hin Hno Hquit Hfuel. unfold chat_loop. cbn [print].
  exact (while_true_quit before (with_cycle p _) fuel line after Hin Hno Hquit Hfuel).
Qed.

(** X23.  Without a quit line [chat_loop] does not end: once the input is
    used up every turn catches the end-of-file error and the loop goes on,
    so no number of turns gives a result. *)
Theorem chat_loop_without_quit_never_ends (p : process) fuel :
  forallb (fun l => negb (is_quit l)) (stdin p) = true ->
  chat_loop fuel p = None.
Proof. intros Hno. unfold chat_loop. cbn [print]. now apply while_true_spins. Qed.

(** X24.  [chat_loop] returns only on a quit: whenever it has returned
    it has read the input up to and including the first quit line, and
    the exit stack is as it was. *)
Theorem chat_loop_returns_only_on_quit (p : process) fuel p' :
  chat_loop fuel p = Some (Returned tt, p') ->
  exit_stack p' = exit_stack p
  /\ exists before line,
       stdin p = (before ++ line :: stdin p')%list
       /\ is_quit line = true
       /\ forallb (fun l => negb (is_quit l)) before = true.
Proof.
  unfold chat_loop. cbn [print]. intros Hrun.
  apply while_true_ended in Hrun as (_ & Hs & _ & _ & Hin). auto.
Qed.

Lemma init_outcome getenv (p : process) :
  exit_stack (snd (init (W := W) getenv p)) = []
  /\ entered (snd (init getenv p)) = entered p
  /\ exited (snd (init getenv p)) = exited p
  /\ cycle (snd (init getenv p)) = cycle p
  /\ stdin (snd (init getenv p)) = stdin p.
Proof.
  unfold init. destruct (String.eqb _ _); [cbn; auto|].
  destruct (getenv "OPENAI_API_BASE") as [b|]; [destruct (String.eqb b _)|]; cbn; auto.
Qed.

(** X25.  When [main] ends, by a quit or by an exception, every context it
    entered has been left, in the reverse order, and the exit stack is
    empty. *)
Theorem main_leaves_every_context_it_entered fuel getenv (p : process) r p' :
  main fuel getenv p = Some (r, p') ->
  exit_stack p' = []
  /\ exists new,
       entered p' = (entered p ++ new)%list
       /\ exited p' = (exited p ++ rev new)%list.
Proof.
  unfold main. pose proof (init_outcome getenv p) as (Hs0 & He0 & Hx0 & _).
  destruct (init getenv p) as [[[]|e0] p0]; cbn [snd] in *.
  2:{ intros [= <- <-]. split; [exact Hs0|]. exists []. now rewrite !app_nil_r. }
  pose proof (connect_trace "celestial_engine.py" p0)
    as (new & Hs1 & He1 & Hx1 & _).
  destruct (connect_to_server "celestial_engine.py" p0) as [[[]|e1] p1]; cbn [snd] in *.
  - destruct (chat_loop fuel p1) as [[r2 p2]|] eqn:Hchat; [|discriminate].
    unfold chat_loop in Hchat. cbn [print] in Hchat.
    apply while_true_ended in Hchat as (-> & Hs2 & He2 & Hx2 & _). cbn in Hs2, He2, Hx2.
    intros [= <- <-]. cbn. split; [reflexivity|]. exists new.
    rewrite He2, Hx2, Hs2, He1, Hx1, Hs1, He0, Hx0, Hs0, app_nil_r. auto.
  - intros [= <- <-]. cbn. split; [reflexivity|]. exists new.
    rewrite He1, Hx1, Hs1, He0, Hx0, Hs0, app_nil_r. auto.
Qed.

(** X26.  With [OPENAI_API_KEY] unset or empty [main] raises at once,
    whatever the number of turns allowed: nothing is spawned, printed or
    read. *)
Theorem main_needs_the_api_key fuel getenv (p : process) :
  getenv "OPENAI_API_KEY" = None \/ getenv "OPENAI_API_KEY" = Some EmptyString ->
  exists p',
    main fuel getenv p
    = Some (Raised (OtherError "No OPENAI_API_KEY found in environment (or .env)."), p')
    /\ cycle p' = cycle p /\ stdin p' = stdin p
    /\ entered p' = entered p /\ exited p' = exited p.
Proof.
  intros Hkey. unfold main, init.
  assert (default EmptyString (getenv "OPENAI_API_KEY") = EmptyString) as ->
    by (destruct Hkey as [-> | ->]; reflexivity).
  cbn. eexists. split; [reflexivity|]. cbn. auto.
Qed.

(** X27.  When the connection fails [main] skips the chat: the exception
    is raised again once [cleanup] has run, for any number of turns
    allowed, and no line of the input has been read. *)
Theorem connection_failure_skips_the_chat fuel getenv (p p0 p1 : process) e :
  init getenv p = (Returned tt, p0) ->
  connect_to_server "celestial_engine.py" p0 = (Raised e, p1) ->
  main fuel getenv p = Some (Raised e, aclose p1)
  /\ stdin (aclose p1) = stdin p.
Proof.
  intros Hinit Hconnect. unfold main. rewrite Hinit, Hconnect. split; [reflexivity|].
  pose proof (init_outcome getenv p) as (_ & _ & _ & _ & Hin0).
  pose proof (connect_trace "celestial_engine.py" p0)
    as (new & _ & _ & _ & Hin1 & _).
  rewrite Hinit in Hin0. rewrite Hconnect in Hin1. cbn in *. congruence.
Qed.

End CommandLine.

(** ** Further runs on the scripted world *)

Import Stage Cli.

(** A response with an empty content list is answerable, and answered. *)
Lemma interpret_returns_iff_answerable_witness :
  (exists answer st',
     Client.interpret (js "{'content': []}") (start []) = (Returned answer, st'))
  <-> Shape.answerable (PyDict [("content", PyList [])]) = true.
Proof.
  exact (interpret_returns_iff_answerable (js "{'content': []}") (start [])
           (PyDict [("content", PyList [])]) eq_refl).
Defined.


(** A text, the number 5, a call of [foo]: the step stops at the number
    and [foo] is never called. *)
Lemma non_object_item_aborts_the_step_witness :
  exists st1,
    Client.interpret
      (js "{'content':[{'type':'text','text':'A'},5,{'type':'tool_use','name':'foo'}]}")
      (start [])
    = (Raised (AttributeError "'int' object has no attribute 'get'"), st1)
    /\ calls st1 = [].
Proof.
  exact (non_object_item_aborts_the_step
           (js "{'content':[{'type':'text','text':'A'},5,{'type':'tool_use','name':'foo'}]}")
           (start [])
           [("content", PyList [say "A"; PyInt 5; use "foo"])]
           [say "A"] (PyInt 5) [use "foo"] eq_refl eq_refl eq_refl eq_refl).
Defined.

(** A call of [foo], then a text item whose text is the number 5: the call
    is made before the join fails on the second item. *)
Lemma non_string_text_fails_after_the_tools_witness :
  exists st',
    Client.interpret
      (js "{'content':[{'type':'tool_use','name':'foo'},{'type':'text','text':5}]}")
      (start [])
    = (Raised (TypeError "sequence item 1: expected str instance, int found"), st')
    /\ calls st' = [(PyStr "foo", PyDict [])].
Proof.
  exact (non_string_text_fails_after_the_tools
           (js "{'content':[{'type':'tool_use','name':'foo'},{'type':'text','text':5}]}")
           (start [])
           [("content",
             PyList [use "foo"; PyDict [("type", PyStr "text"); ("text", PyInt 5)]])]
           [use "foo"] [("type", PyStr "text"); ("text", PyInt 5)] [] (PyInt 5)
           eq_refl eq_refl eq_refl eq_refl eq_refl eq_refl eq_refl).
Defined.

(** The content is the number 5. *)
Lemma content_that_cannot_be_iterated_witness :
  Client.interpret (js "{'content':5}") (start [])
  = (Raised (TypeError "'int' object is not iterable"), start []).
Proof.
  exact (content_that_cannot_be_iterated (js "{'content':5}") (start [])
           [("content", PyInt 5)] (PyInt 5) eq_refl eq_refl I).
Defined.

(** A tab and a space before the text, a newline after it. *)
Lemma interpret_ignores_outer_white_space_witness :
  Client.interpret (String (ascii_of_nat 9) " " ++ js "{'content': []}" ++ nl) (start [])
  = Client.interpret (js "{'content': []}") (start []).
Proof.
  exact (interpret_ignores_outer_white_space (String (ascii_of_nat 9) " ")
           (js "{'content': []}") nl (start []) eq_refl eq_refl).
Defined.

(** The tool channel is down: the oracle's reply is still in the script. *)
Lemma catalogue_failure_stops_the_cycle_witness :
  Client.process_query (H := offline) "q" (start [Returned "unused"])
  = (Raised (OtherError "Connection closed"), start [Returned "unused"]).
Proof.
  exact (catalogue_failure_stops_the_cycle (H := offline) "q" (start [Returned "unused"])
           (OtherError "Connection closed") [Returned "unused"] eq_refl).
Defined.

(** The oracle has no reply left. *)
Lemma oracle_failure_stops_the_cycle_witness :
  Client.process_query "q" (start [])
  = (Raised (OtherError "Connection error."), start []).
Proof.
  exact (oracle_failure_stops_the_cycle "q" (start []) catalogue []
           (OtherError "Connection error.") [] eq_refl eq_refl).
Defined.

(** The oracle fails on the negotiation step of the handler. *)
Lemma negotiation_failure_skips_presentation_witness :
  Host.handle_query (get_request "hi") (start [])
  = (Raised (OtherError "Connection error."), start []).
Proof.
  exact (negotiation_failure_skips_presentation (get_request "hi") (start [])
           (PyStr "hi") (OtherError "Connection error.") (start []) eq_refl eq_refl).
Defined.

(** The oracle answers the negotiation step with no JSON and the
    presentation pass with [" nice "]. *)
Lemma handler_returns_the_presentation_text_witness :
  Host.handle_query (get_request "hi") (start [Returned "not json"; Returned " nice "])
  = (Returned (PyDict [("result", PyStr "nice")]), start []).
Proof.
  exact (handler_returns_the_presentation_text (get_request "hi")
           (start [Returned "not json"; Returned " nice "]) (PyStr "hi")
           ("Model did not return valid JSON:" ++ nl ++ "not json")
           (start [Returned " nice "]) " nice " [] eq_refl eq_refl eq_refl).
Defined.

(** A POST whose body is the empty array. *)
Lemma body_that_is_no_object_is_refused_witness :
  Host.handle_query (post_request (PyList [])) (start [])
  = (Raised (AttributeError "'list' object has no attribute 'get'"), start []).
Proof.
  exact (body_that_is_no_object_is_refused (post_request (PyList [])) (start [])
           (PyList []) eq_refl eq_refl eq_refl).
Defined.

(** The same question by GET and by POST. *)
Lemma presentation_never_sees_the_query_witness :
  Host.handle_query (get_request "hi") (start [Returned "not json"; Returned "nice"])
  = Host.handle_query (post_request (PyDict [("q", PyStr "hi")]))
      (start [Returned "not json"; Returned "nice"]).
Proof.
  exact (presentation_never_sees_the_query (get_request "hi")
           (post_request (PyDict [("q", PyStr "hi")]))
           (start [Returned "not json"; Returned "nice"])
           (start [Returned "not json"; Returned "nice"])
           (PyStr "hi") (PyStr "hi") eq_refl eq_refl eq_refl).
Defined.

(** The service answers every request with the same small object. *)
Lemma tool_results_decode_to_the_service_data_witness :
  let data := PyDict [("bodies", PyList [PyStr "Sun"; PyStr "Moon"]); ("count", PyInt 2)] in
  let args :=
    {| Engine.body := "Sun"; Engine.phenomena := "rise-and-set";
       Engine.latitude := "51"; Engine.longitude := "0";
       Engine.startDate := "2024-01-01"; Engine.endDate := "2024-01-05";
       Engine.timezone := None; Engine.useBst := Some true;
       Engine.depression := None; Engine.altitude := Some 3 |} in
  let mv_args :=
    {| Engine.mv_latitude := "51"; Engine.mv_longitude := "0";
       Engine.mv_startDate := "2024-01-01"; Engine.mv_endDate := "2024-01-05";
       Engine.mv_timezone := "2" |} in
  exists text,
    Json.loads text = Some data
    /\ fst (Engine.list_celestial_bodies "https://h" "k" (service (Returned data)) idle)
       = Returned text
    /\ fst (Engine.list_phenomena "https://h" "k" (service (Returned data)) "Sun" idle)
       = Returned text
    /\ fst (Engine.get_phenomena "https://h" "k" (service (Returned data)) args idle)
       = Returned text
    /\ fst (Engine.moon_visibility "https://h" "k" (service (Returned data)) mv_args idle)
       = Returned text.
Proof.
  intros data args mv_args.
  exact (tool_results_decode_to_the_service_data "https://h" "k" (service (Returned data))
           data "Sun" args mv_args idle (fun request => eq_refl) eq_refl).
Defined.

(** The service refuses every request. *)
Lemma tool_raises_what_the_request_raised_witness :
  let e := OtherError "Client error '401 Access Denied'" in
  let args :=
    {| Engine.body := "Sun"; Engine.phenomena := "rise-and-set";
       Engine.latitude := "51"; Engine.longitude := "0";
       Engine.startDate := "2024-01-01"; Engine.endDate := "2024-01-05";
       Engine.timezone := None; Engine.useBst := None;
       Engine.depression := None; Engine.altitude := None |} in
  let mv_args :=
    {| Engine.mv_latitude := "51"; Engine.mv_longitude := "0";
       Engine.mv_startDate := "2024-01-01"; Engine.mv_endDate := "2024-01-05";
       Engine.mv_timezone := "2" |} in
  fst (Engine.list_celestial_bodies "https://h" "" (service (Raised e)) idle) = Raised e
  /\ fst (Engine.list_phenomena "https://h" "" (service (Raised e)) "Sun" idle) = Raised e
  /\ fst (Engine.get_phenomena "https://h" "" (service (Raised e)) args idle) = Raised e
  /\ fst (Engine.moon_visibility "https://h" "" (service (Raised e)) mv_args idle)
     = Raised e.
Proof.
  intros e args mv_args.
  exact (tool_raises_what_the_request_raised "https://h" "" (service (Raised e))
           e "Sun" args mv_args idle (fun request => eq_refl)).
Defined.

(** A JavaScript file is refused. *)
Lemma connect_refuses_a_script_that_is_no_py_witness :
  connect_to_server (H0 := transport true) "server.js" (boot [] ["quit"])
  = (Raised (OtherError "Please provide a .py server script."), boot [] ["quit"]).
Proof.
  apply (connect_refuses_a_script_that_is_no_py (H0 := transport true)
           "server.js" (boot [] ["quit"])).
  intros prefix E.
  assert (endswith "server.js" ".py" = true) as E' by (apply endswith_spec; eauto).
  vm_compute in E'. discriminate.
Defined.

(** A query, a quit in capitals with blanks around it, and one more line. *)
Lemma chat_loop_stops_at_the_first_quit_witness :
  chat_loop 2 (boot [Returned "not json"] ["hello"; " QUIT "; "x"])
  = Some (Returned tt,
          {| cycle :=
               {| world := []; calls := [];
                  stdout :=
                    [nl ++ "MCP Client Started! Type your query or 'quit' to exit.";
                     nl ++ "Query: ";
                     nl ++ "Response:" ++ nl ++ "Model did not return valid JSON:"
                        ++ nl ++ "not json";
                     nl ++ "Query: "] |};
             stdin := ["x"];
             openai := {| api_key := EmptyString; api_base := None |};
             exit_stack := []; entered := []; exited := [] |}).
Proof.
  exact (chat_loop_stops_at_the_first_quit ["hello"] " QUIT " ["x"]
           (boot [Returned "not json"] ["hello"; " QUIT "; "x"]) 2
           eq_refl eq_refl eq_refl (le_n 2)).
Defined.

(** One query and no quit: five turns give no result. *)
Lemma chat_loop_without_quit_never_ends_witness :
  chat_loop 5 (boot [] ["hello"]) = None.
Proof. exact (chat_loop_without_quit_never_ends (boot [] ["hello"]) 5 eq_refl). Defined.

(** The oracle is down when the first line is served; the chat ends on
    the second line. *)
Lemma chat_loop_returns_only_on_quit_witness :
  let p' : @process script :=
    {| cycle :=
         {| world := []; calls := [];
            stdout :=
              [nl ++ "MCP Client Started! Type your query or 'quit' to exit.";
               nl ++ "Query: ";
               nl ++ "Error processing query: Connection error.";
               nl ++ "Query: "] |};
       stdin := ["x"];
       openai := {| api_key := EmptyString; api_base := None |};
       exit_stack := []; entered := []; exited := [] |} in
  chat_loop 2 (boot [] ["hello"; "quit"; "x"]) = Some (Returned tt, p')
  /\ exit_stack p' = []
  /\ exists before line,
       ["hello"; "quit"; "x"] = (before ++ line :: stdin p')%list
       /\ is_quit line = true
       /\ forallb (fun l => negb (is_quit l)) before = true.
Proof.
  intros p'. split; [reflexivity|].
  exact (chat_loop_returns_only_on_quit (boot [] ["hello"; "quit"; "x"]) 2 p' eq_refl).
Defined.

(** A run that connects and quits on the first line: the session is left
    before the transport. *)
Lemma main_leaves_every_context_it_entered_witness :
  let p' :=
    {| cycle :=
         {| world := []; calls := [];
            stdout :=
              [nl ++ "Connected to server with tools: "
                  ++ "['list_celestial_bodies', 'list_phenomena']";
               nl ++ "MCP Client Started! Type your query or 'quit' to exit.";
               nl ++ "Query: "] |};
       stdin := ["x"];
       openai := {| api_key := "sk"; api_base := None |};
       exit_stack := [];
       entered := [StdioTransport; Session];
       exited := [Session; StdioTransport] |} in
  main (H0 := transport true) 1 (environment "sk") (boot [] ["quit"; "x"])
  = Some (Returned tt, p')
  /\ exit_stack p' = []
  /\ exists new,
       entered p' = ([] ++ new)%list /\ exited p' = ([] ++ rev new)%list.
Proof.
  intros p'. split; [reflexivity|].
  exact (main_leaves_every_context_it_entered (H0 := transport true) 1
           (environment "sk") (boot [] ["quit"; "x"]) (Returned tt) p' eq_refl).
Defined.

(** The key is set to the empty string. *)
Lemma main_needs_the_api_key_witness :
  exists p',
    main (H0 := transport true) 3 (environment EmptyString) (boot [] ["quit"])
    = Some (Raised (OtherError "No OPENAI_API_KEY found in environment (or .env)."), p')
    /\ cycle p' = start [] /\ stdin p' = ["quit"]
    /\ entered p' = [] /\ exited p' = [].
Proof.
  exact (main_needs_the_api_key (H0 := transport true) 3 (environment EmptyString)
           (boot [] ["quit"]) (or_intror eq_refl)).
Defined.

(** The session cannot be entered: the line [quit] stays unread. *)
Lemma connection_failure_skips_the_chat_witness :
  main (H0 := transport false) 3 (environment "sk") (boot [] ["quit"])
  = Some (Raised (OtherError "Connection closed"),
          {| cycle := start []; stdin := ["quit"];
             openai := {| api_key := "sk"; api_base := None |};
             exit_stack := []; entered := [StdioTransport];
             exited := [StdioTransport] |})
  /\ ["quit"] = ["quit"].
Proof.
  exact (connection_failure_skips_the_chat (H0 := transport false) 3 (environment "sk")
           (boot [] ["quit"])
           {| cycle := start []; stdin := ["quit"];
              openai := {| api_key := "sk"; api_base := None |};
              exit_stack := []; entered := []; exited := [] |}
           {| cycle := start []; stdin := ["quit"];
              openai := {| api_key := "sk"; api_base := None |};
              exit_stack := [StdioTransport]; entered := [StdioTransport];
              exited := [] |}
           (OtherError "Connection closed") eq_refl eq_refl).
Defined.
